(** * Claim-Polygraph: the claim verification pipeline

    A shallow embedding of the Python sources
      - [claim_processing/claim_worthiness.py]  (segmenter and scorer),
      - [claim_processing/claim_extraction.py]  (claim extractor),
      - [google_fact_check/claim_search_google_api.py] (aggregator),
      - [app.py] and [google_fact_check/fact_check.py] (the two callers),
    followed by the properties of the pipeline.

    Conventions.  Python [str] is [string]; its characters are the code
    points below 256.  A Python [float] is a [pyfloat]: the finite values
    are rationals, which is exact for the comparisons the code performs.
    Values decoded by [resp.json()] are [json]; values built by
    [ast.literal_eval] are [pyval].  Code that raises returns [Raise];
    code that talks to a collaborator appends to a trace of [event]s. *)

From Stdlib Require Import List String Ascii ZArith QArith Bool Lia Sorted Permutation.
From Stdlib Require Import DecimalString Lqa.
Import ListNotations.

Local Open Scope string_scope.
Local Open Scope list_scope.
Local Open Scope Z_scope.

Set Implicit Arguments.
Set Warnings "-register-all".

(* ================================================================== *)
(** * Python values                                                     *)
(* ================================================================== *)

(** ** Floats *)

Inductive pyfloat : Type :=
| FNaN
| FNegInf
| FFin (q : Q)
| FPosInf.

(** [x < y] on floats; every comparison with NaN is false. *)
Definition float_lt (x y : pyfloat) : bool :=
  match x, y with
  | FNaN, _ | _, FNaN => false
  | FNegInf, FNegInf => false
  | FNegInf, _ => true
  | _, FNegInf => false
  | FPosInf, _ => false
  | FFin _, FPosInf => true
  | FFin a, FFin b => negb (Qle_bool b a)
  end.

(** [x >= y] on floats. *)
Definition float_ge (x y : pyfloat) : bool :=
  match x, y with
  | FNaN, _ | _, FNaN => false
  | _, FNegInf => true
  | FNegInf, _ => false
  | FPosInf, _ => true
  | FFin _, FPosInf => false
  | FFin a, FFin b => Qle_bool b a
  end.

(** [x == y] on floats. *)
Definition float_eqb (x y : pyfloat) : bool :=
  match x, y with
  | FNegInf, FNegInf | FPosInf, FPosInf => true
  | FFin a, FFin b => Qeq_bool a b
  | _, _ => false
  end.

Definition float_is_nan (x : pyfloat) : bool :=
  match x with FNaN => true | _ => false end.

(** ** Decoded JSON: what [resp.json()] and [json.loads] return.
    A dict keeps its items in insertion order. *)

Inductive json : Type :=
| JNull
| JBool (b : bool)
| JInt (n : Z)
| JFloat (f : pyfloat)
| JStr (s : string)
| JList (items : list json)
| JDict (items : list (string * json)).

(** ** Python literals: what [ast.literal_eval] returns.
    A set is given by its elements in iteration order. *)

Inductive pyval : Type :=
| PyNone
| PyEllipsis
| PyBool (b : bool)
| PyInt (n : Z)
| PyFloat (f : pyfloat)
| PyComplex (re im : pyfloat)
| PyStr (s : string)
| PyBytes (bs : list Z)
| PyList (items : list pyval)
| PyTuple (items : list pyval)
| PySet (items : list pyval)
| PyDict (items : list (pyval * pyval)).

(** ** Exceptions.
    [SystemExit] derives from [BaseException] only, so [except Exception]
    lets it through; everything else the pipeline meets derives from
    [Exception] and is recorded with its class name and [str(e)]. *)

Inductive exn : Type :=
| SystemExit (msg : string)
| PyExc (cls : string) (msg : string).

Definition is_Exception (e : exn) : bool :=
  match e with SystemExit _ => false | PyExc _ _ => true end.

(** [str(e)] *)
Definition str_of_exn (e : exn) : string :=
  match e with SystemExit m => m | PyExc _ m => m end.

Inductive result (A : Type) : Type :=
| Ok (a : A)
| Raise (e : exn).

Arguments Ok {A} a.
Arguments Raise {A} e.

Definition is_ok {A} (r : result A) : bool :=
  match r with Ok _ => true | Raise _ => false end.

(** The pure error monad, for code that can raise but calls nobody. *)
Definition rbind {A B} (r : result A) (k : A -> result B) : result B :=
  match r with Ok a => k a | Raise e => Raise e end.

(** ** HTTP responses of the [requests] library. *)

Record response : Type := mkResponse {
  status_code : Z;
  resp_text : string;           (* [resp.text] *)
  resp_json : result json       (* [resp.json()], which raises on a bad body *)
}.

(** ** Fact-check records: the dict built by [search_fact_checks]. *)

Record FactCheckRecord : Type := mkRecord {
  fc_claim : json;
  fc_date : json;
  fc_publisher : json;
  fc_title : json;
  fc_url : json;
  fc_rating : json
}.

(** A scored sentence: the tuple [(sent, float(score))]. *)
Definition scored_sentence : Type := (json * pyfloat)%type.

(* ================================================================== *)
(** * Effects: collaborators and the trace                              *)
(* ================================================================== *)

Inductive event : Type :=
| CallProcessInput (raw_input : string)
| CallAssessmentLLM (prompt : string)
| CallTranscriber
| CallScoring (api_key : string) (input_text : string)
| CallExtractionLLM (prompt : string)
| CallSearch (query : pyval) (language : string) (max_results : Z)
| PrintClaimList (claim_list : pyval)
| PrintFactChecks (fact_checks : list FactCheckRecord)
| PrintNoFactChecks
| PrintResult (idx : Z) (fc : FactCheckRecord)
| Flash (message category : string).

Definition trace : Type := list event.

(** A computation over a state [S] that may raise; the state reached
    so far survives the exception. *)
Definition M (S A : Type) : Type := S -> result A * S.

Definition ret {S A} (a : A) : M S A := fun s => (Ok a, s).

Definition raise {S A} (e : exn) : M S A := fun s => (Raise e, s).

Definition bind {S A B} (m : M S A) (k : A -> M S B) : M S B :=
  fun s => match m s with
           | (Ok a, s') => k a s'
           | (Raise e, s') => (Raise e, s')
           end.

Definition of_result {S A} (r : result A) : M S A := fun s => (r, s).

Declare Scope py_scope.
Delimit Scope py_scope with py.
Notation "x <- m ;; k" := (bind m (fun x => k))
  (at level 61, m at next level, right associativity) : py_scope.
Notation "' p <- m ;; k" := (bind m (fun x => let p := x in k))
  (at level 61, p pattern, m at next level, right associativity) : py_scope.
Notation "m ;;; k" := (bind m (fun _ => k))
  (at level 61, right associativity) : py_scope.

(** [for x in xs: body x] *)
Fixpoint for_each {S A} (xs : list A) (body : A -> M S unit) : M S unit :=
  match xs with
  | [] => ret tt
  | x :: xs' => bind (body x) (fun _ => for_each xs' body)
  end.

(** [try: body / except Exception as e: handler e] *)
Definition try_except {S A} (body : M S A) (handler : exn -> M S A) : M S A :=
  fun s => match body s with
           | (Raise e, s') => if is_Exception e then handler e s'
                              else (Raise e, s')
           | ok => ok
           end.

(** Record an event. *)
Definition emit (e : event) : M trace unit := fun tr => (Ok tt, tr ++ [e]).

(** Call a collaborator whose answer may depend on everything that
    happened before, and record the call. *)
Definition call {A} (e : event) (oracle : trace -> result A) : M trace A :=
  fun tr => (oracle tr, tr ++ [e]).

(** The parts of the run that the sources import but do not define.
    A remote collaborator sees the history of the run, so it may be
    stateful; the library functions that run locally are functions of
    their argument. *)
Class Collaborators : Type := {
  (* [os.getenv("CLAIMBUSTER_API_KEY")] *)
  getenv_CLAIMBUSTER_API_KEY : option string;
  (* [nltk.tokenize.sent_tokenize] *)
  sent_tokenize : string -> result (list string);
  (* [requests.post(CLAIMBUSTER_BATCH_URL, ...)] *)
  claimbuster_post : trace -> string -> string -> result response;
  (* [str(e)] of the [HTTPError] that [raise_for_status] raises *)
  http_error_str : response -> string;
  (* [json.dumps] *)
  json_dumps : json -> string;
  (* [float(n)] of an [int]; raises [OverflowError] when [n] is too large *)
  float_of_int : Z -> result pyfloat;
  (* [llm_wrapper.prompt_builder.build_prompt_to_extract_Claims] *)
  build_prompt_to_extract_Claims : list json -> string;
  (* [llm_wrapper.llm_inference.generate_response_40] *)
  generate_response_40 : trace -> string -> result string;
  (* [llm_wrapper.prompt_builder.build_factcheck_prompt] *)
  build_factcheck_prompt : string -> Z -> string -> string;
  (* [llm_wrapper.llm_inference.generate_response_with_search] *)
  generate_response_with_search : trace -> string -> result string;
  (* [json.loads] *)
  json_loads : string -> result json;
  (* [ast.literal_eval] *)
  literal_eval : string -> result pyval;
  (* [requests.get(FACTCHECK_ENDPOINT, params=...)] *)
  factcheck_get : trace -> pyval -> string -> Z -> result response;
  (* [processor.process_input]: the text and the warnings *)
  process_input : trace -> string -> result (string * list string);
  (* [youtube_transcriber.transcribe_youtube] on the fixed video *)
  transcribe_youtube : trace -> result string
}.

(* ================================================================== *)
(** * Strings                                                           *)
(* ================================================================== *)

Definition chars (s : string) : list ascii := list_ascii_of_string s.
Definition str (l : list ascii) : string := string_of_list_ascii l.

(** Truth value of a [str]: non-empty. *)
Definition str_truthy (s : string) : bool :=
  match s with EmptyString => false | String _ _ => true end.

(** [c.isspace()], which is also what [\s] matches in a [str] pattern:
    TAB..CR, FS..US, SPACE, NEL and NBSP. *)
Definition is_space (c : ascii) : bool :=
  let n := N_of_ascii c in
  (((9 <=? n) && (n <=? 13)) || ((28 <=? n) && (n <=? 32))
   || (n =? 133) || (n =? 160))%N.

Fixpoint lstrip_chars (l : list ascii) : list ascii :=
  match l with
  | [] => []
  | c :: r => if is_space c then lstrip_chars r else l
  end.

Definition rstrip_chars (l : list ascii) : list ascii :=
  rev (lstrip_chars (rev l)).

(** [s.strip()] *)
Definition strip (s : string) : string :=
  str (rstrip_chars (lstrip_chars (chars s))).

(** [re.sub(r'\s+', ' ', s)]: every maximal run of whitespace becomes one
    space.  [in_run] tells that the previous character was whitespace. *)
Fixpoint re_sub_ws_chars (in_run : bool) (l : list ascii) : list ascii :=
  match l with
  | [] => []
  | c :: r =>
      if is_space c
      then (if in_run then re_sub_ws_chars true r
            else " "%char :: re_sub_ws_chars true r)
      else c :: re_sub_ws_chars false r
  end.

Definition re_sub_ws (s : string) : string :=
  str (re_sub_ws_chars false (chars s)).

Fixpoint starts_with (p l : list ascii) : bool :=
  match p, l with
  | [], _ => true
  | _ :: _, [] => false
  | a :: p', b :: l' => Ascii.eqb a b && starts_with p' l'
  end.

(** [s.endswith(suffix)] *)
Definition endswith (s suffix : string) : bool :=
  starts_with (rev (chars suffix)) (rev (chars s)).

(** [s[:-1]] *)
Definition drop_last (s : string) : string :=
  str (removelast (chars s)).

Definition is_terminator (c : ascii) : bool :=
  (Ascii.eqb c "." || Ascii.eqb c "!" || Ascii.eqb c "?")%char.

(** [re.split(r'([.!?])', text)]: the pieces between the terminators,
    with every terminator kept as a piece of its own. *)
Fixpoint re_split_chars (l : list ascii) : list (list ascii) :=
  match l with
  | [] => [[]]
  | c :: r =>
      if is_terminator c then [] :: [c] :: re_split_chars r
      else match re_split_chars r with
           | first :: rest => (c :: first) :: rest
           | [] => [[c]]
           end
  end.

Definition re_split_terminators (text : string) : list string :=
  map str (re_split_chars (chars text)).

(** [" ".join(items)] *)
Fixpoint join_space (items : list string) : string :=
  match items with
  | [] => ""
  | [s] => s
  | s :: rest => (s ++ " " ++ join_space rest)%string
  end.

(** [s[:n]] for [n >= 0] *)
Definition str_prefix (n : nat) (s : string) : string := substring 0 n s.

(** [str(n)] of an [int] *)
Definition str_of_int (n : Z) : string := NilZero.string_of_int (Z.to_int n).

(* ================================================================== *)
(** * Sentence segmenter: [split_into_sentences]                        *)
(* ================================================================== *)

(** [_ensure_nltk_punkt]: looks the tokenizer data up and downloads it
    when [LookupError] is raised; [nltk.download] reports a failure
    through its return value, which is ignored. *)
Definition _ensure_nltk_punkt : result unit := Ok tt.

(** [try: r / except Exception: fallback] on a pure computation. *)
Definition rtry {A} (r : result A) (fallback : A) : result A :=
  match r with
  | Raise e => if is_Exception e then Ok fallback else Raise e
  | ok => ok
  end.

(** The loop [for i in range(0, len(parts) - 1, 2)] of the fallback. *)
Fixpoint fallback_pairs (parts : list string) : list string :=
  match parts with
  | a :: b :: rest =>
      let s := strip (a ++ b)%string in
      (if str_truthy s then [s] else []) ++ fallback_pairs rest
  | _ => []
  end.

(** The regex fallback of [split_into_sentences]. *)
Definition regex_fallback (text : string) : list string :=
  let parts := re_split_terminators text in
  let sentences := fallback_pairs parts in
  if Nat.odd (List.length parts) && str_truthy (strip (last parts ""))
  then sentences ++ [strip (last parts "")]
  else sentences.

(** One turn of the loop [for s in sentences] that fills [normed]. *)
Definition normalize_step (normed : list string) (s : string) : list string :=
  let s := strip (re_sub_ws s) in
  if negb (str_truthy s) then normed
  else
    let s := if negb (endswith s ".")
             then (if endswith s "!" || endswith s "?"
                   then (drop_last s ++ ".")%string
                   else (s ++ ".")%string)
             else s in
    normed ++ [s].

Definition normalize_sentences (sentences : list string) : list string :=
  fold_left normalize_step sentences [].

Section Segmenter.
Context {C : Collaborators}.

(** The sentence-like units before normalisation: the tokenizer's, or
    the fallback's when the tokenizer raises or returns nothing.
    [text] is already stripped and not empty. *)
Definition sentence_units (text : string) : result (list string) :=
  rbind _ensure_nltk_punkt (fun _ =>
  rbind (rtry (sent_tokenize text) []) (fun sentences =>
  match sentences with
  | [] => Ok (regex_fallback text)
  | _ => Ok sentences
  end)).

Definition split_into_sentences (text : string) : result (list string) :=
  let text := strip text in
  if negb (str_truthy text) then Ok []
  else rbind (sentence_units text) (fun sentences =>
       Ok (normalize_sentences sentences)).

End Segmenter.

(* ================================================================== *)
(** * Dynamic operations on decoded JSON and on literals                *)
(* ================================================================== *)

(** [type(v).__name__] *)
Definition json_type_name (v : json) : string :=
  match v with
  | JNull => "NoneType" | JBool _ => "bool" | JInt _ => "int"
  | JFloat _ => "float" | JStr _ => "str" | JList _ => "list"
  | JDict _ => "dict"
  end.

(** Truth value of a decoded value, as [or], [and] and [if] test it. *)
Definition json_truthy (v : json) : bool :=
  match v with
  | JNull => false
  | JBool b => b
  | JInt n => negb (n =? 0)
  | JFloat f => negb (float_eqb f (FFin 0))
  | JStr s => str_truthy s
  | JList l => match l with [] => false | _ => true end
  | JDict l => match l with [] => false | _ => true end
  end.

(** [a or b] *)
Definition py_or (a b : json) : json := if json_truthy a then a else b.

(** Lookup in the items of a dict. *)
Fixpoint dict_lookup (items : list (string * json)) (key : string) : option json :=
  match items with
  | [] => None
  | (k, v) :: rest => if String.eqb k key then Some v else dict_lookup rest key
  end.

(** [d.get(key)] on a dict: [None] when the key is missing. *)
Definition dict_get (items : list (string * json)) (key : string) : json :=
  match dict_lookup items key with Some v => v | None => JNull end.

(** [obj.get(key, default)] on any decoded value: only a dict has [get]. *)
Definition json_get (obj : json) (key : string) (default : json) : result json :=
  match obj with
  | JDict items =>
      Ok (match dict_lookup items key with Some v => v | None => default end)
  | _ => Raise (PyExc "AttributeError"
                  ("'" ++ json_type_name obj ++ "' object has no attribute 'get'")%string)
  end.

(** [for x in v]: the elements a decoded value yields. *)
Definition json_iter (v : json) : result (list json) :=
  match v with
  | JList l => Ok l
  | JDict items => Ok (map (fun kv => JStr (fst kv)) items)
  | JStr s => Ok (map (fun c => JStr (String c EmptyString)) (chars s))
  | _ => Raise (PyExc "TypeError"
                  ("'" ++ json_type_name v ++ "' object is not iterable")%string)
  end.

(** [isinstance(v, (int, float))]; [bool] is a subclass of [int]. *)
Definition is_number (v : json) : bool :=
  match v with JBool _ | JInt _ | JFloat _ => true | _ => false end.

Definition pyval_type_name (v : pyval) : string :=
  match v with
  | PyNone => "NoneType" | PyEllipsis => "ellipsis" | PyBool _ => "bool"
  | PyInt _ => "int" | PyFloat _ => "float" | PyComplex _ _ => "complex"
  | PyStr _ => "str" | PyBytes _ => "bytes" | PyList _ => "list"
  | PyTuple _ => "tuple" | PySet _ => "set" | PyDict _ => "dict"
  end.

(** [for x in v] on a literal: a string yields its characters, a dict
    its keys, bytes their integers; a scalar is not iterable. *)
Definition py_iter (v : pyval) : result (list pyval) :=
  match v with
  | PyList l | PyTuple l | PySet l => Ok l
  | PyDict items => Ok (map fst items)
  | PyStr s => Ok (map (fun c => PyStr (String c EmptyString)) (chars s))
  | PyBytes bs => Ok (map PyInt bs)
  | _ => Raise (PyExc "TypeError"
                  ("'" ++ pyval_type_name v ++ "' object is not iterable")%string)
  end.

(** A loop that appends to an accumulator and may raise in its body. *)
Fixpoint fold_result {A B} (f : B -> A -> result B) (l : list A) (acc : B)
  : result B :=
  match l with
  | [] => Ok acc
  | x :: rest => rbind (f acc x) (fun acc' => fold_result f rest acc')
  end.

(* ================================================================== *)
(** * Ranking: filter, [list.sort], slice                               *)
(* ================================================================== *)

Section Ranking.
Variable T : Type.
Variable key : T -> pyfloat.

(** Insert [x] in front of the first element whose key is not below
    the key of [x]. *)
Fixpoint insert_by_key (x : T) (l : list T) : list T :=
  match l with
  | [] => [x]
  | y :: r => if float_lt (key y) (key x) then y :: insert_by_key x r
              else x :: l
  end.

(** A stable ascending sort that compares keys with [<] only. *)
Fixpoint stable_sort (l : list T) : list T :=
  match l with
  | [] => []
  | x :: r => insert_by_key x (stable_sort r)
  end.

(** [l.sort(key=key, reverse=reverse)].  With [reverse=True] the list
    is reversed, sorted ascending and reversed again, which keeps
    elements of equal key in their original order. *)
Definition list_sort (reverse : bool) (l : list T) : list T :=
  if reverse then rev (stable_sort (rev l)) else stable_sort l.

(** [l[:n]] for [n >= 0] *)
Definition slice_to (n : Z) (l : list T) : list T := firstn (Z.to_nat n) l.

End Ranking.

(** The constant [0.5] of the scorer. *)
Definition score_threshold : pyfloat := FFin (1 # 2).

(** Lines 139-141 of [claim_worthiness.py]: threshold, sort, top-k. *)
Definition rank_scored {T} (scored : list (T * pyfloat)) (top_k : Z)
  : list (T * pyfloat) :=
  let scored := filter (fun item => float_ge (snd item) score_threshold) scored in
  let scored := list_sort (@snd T pyfloat) true scored in
  slice_to (Z.max 0 top_k) scored.

(* ================================================================== *)
(** * Checkworthiness scorer                                            *)
(* ================================================================== *)

(** [raise_for_status] raises [HTTPError] for 4xx and 5xx. *)
Definition raises_for_status (resp : response) : bool :=
  (400 <=? status_code resp) && (status_code resp <? 600).

(** The message of the [SystemExit] raised without an API key. *)
Definition missing_key_message : string :=
  "Please set CLAIMBUSTER_API_KEY env var or pass api_key argument.".

(** [" ".join(s.strip() for s in sentences if s.strip())] *)
Definition batch_input_text (sentences : list string) : string :=
  join_space (map strip (filter (fun s => str_truthy (strip s)) sentences)).

Section Scorer.
Context {C : Collaborators}.
Local Open Scope py_scope.

(** [float(score)] of a value that passed [isinstance(score, (int, float))]. *)
Definition py_float (v : json) : result pyfloat :=
  match v with
  | JFloat f => Ok f
  | JInt n => float_of_int n
  | JBool b => Ok (FFin (if b then 1 else 0))
  | _ => Raise (PyExc "TypeError" "float() argument must be a string or a real number")
  end.

(** The body of [for item in data] (and of [for item in data["results"]]). *)
Definition score_item (results : list scored_sentence) (item : json)
  : result (list scored_sentence) :=
  match item with
  | JDict d =>
      let sent := py_or (py_or (dict_get d "sentence") (dict_get d "text")) (JStr "") in
      let score := py_or (py_or (dict_get d "score") (dict_get d "checkworthiness"))
                         (dict_get d "value") in
      if json_truthy sent && is_number score
      then rbind (py_float score) (fun f => Ok (results ++ [(sent, f)]))
      else Ok results
  | _ => Ok results
  end.

(** The body of [for k, v in data.items()]; a key of a decoded object
    is always a [str]. *)
Definition score_entry (results : list scored_sentence) (kv : string * json)
  : result (list scored_sentence) :=
  let (k, v) := kv in
  if is_number v
  then rbind (py_float v) (fun f => Ok (results ++ [(JStr k, f)]))
  else Ok results.

(** The shape dispatch of [score_sentences] on the decoded body. *)
Definition normalize_scores (data : json) : result (list scored_sentence) :=
  match data with
  | JList items => fold_result score_item items []
  | JDict d =>
      match dict_lookup d "results" with
      | Some (JList items) => fold_result score_item items []
      | _ => fold_result score_entry d []
      end
  | _ => Raise (SystemExit ("Unexpected API response format: "
                            ++ str_prefix 500 (json_dumps data))%string)
  end.

Definition score_sentences (sentences : list string) (api_key : string)
  : M trace (list scored_sentence) :=
  match sentences with
  | [] => ret []
  | _ =>
      let input_text := batch_input_text sentences in
      resp <- call (CallScoring api_key input_text)
                   (fun tr => claimbuster_post tr api_key input_text) ;;
      if raises_for_status resp
      then raise (SystemExit ("ClaimBuster API error: " ++ http_error_str resp
                              ++ " | Body: " ++ str_prefix 500 (resp_text resp))%string)
      else
        data <- of_result (resp_json resp) ;;
        of_result (normalize_scores data)
  end.

(** [api_key or os.getenv("CLAIMBUSTER_API_KEY")] *)
Definition resolve_api_key (api_key : option string) : option string :=
  match api_key with
  | Some k => if str_truthy k then Some k else getenv_CLAIMBUSTER_API_KEY
  | None => getenv_CLAIMBUSTER_API_KEY
  end.

Definition top_checkworthy_sentences
           (text : string) (api_key : option string) (top_k : Z)
  : M trace (list scored_sentence) :=
  match resolve_api_key api_key with
  | Some k =>
      if str_truthy k then
        sentences <- of_result (split_into_sentences text) ;;
        scored <- score_sentences sentences k ;;
        ret (rank_scored scored top_k)
      else raise (SystemExit missing_key_message)
  | None => raise (SystemExit missing_key_message)
  end.

End Scorer.

(* ================================================================== *)
(** * Claim extractor: [claim_extraction.py]                            *)
(* ================================================================== *)

Section Extractor.
Context {C : Collaborators}.
Local Open Scope py_scope.

Definition check_worth_paragraph (paragraph : string) : M trace (list json) :=
  top_results <- top_checkworthy_sentences paragraph None 3 ;;
  ret (map fst top_results).

Definition extract_claims (paragraph : string) : M trace string :=
  check_worth_paragraph_to_claim <- check_worth_paragraph paragraph ;;
  let prompt := build_prompt_to_extract_Claims check_worth_paragraph_to_claim in
  call (CallExtractionLLM prompt) (fun tr => generate_response_40 tr prompt).

End Extractor.

(* ================================================================== *)
(** * Fact-check aggregator: [claim_search_google_api.py]               *)
(* ================================================================== *)

(** The inner loop body: one record per review. *)
Definition review_record (claim_text claim_date : json)
           (results : list FactCheckRecord) (review : json)
  : result (list FactCheckRecord) :=
  rbind (json_get review "publisher" (JDict [])) (fun publisher =>
  rbind (json_get publisher "name" (JStr "Unknown publisher")) (fun name =>
  rbind (json_get review "title" (JStr "No title")) (fun title =>
  rbind (json_get review "url" (JStr "No URL")) (fun url =>
  rbind (json_get review "textualRating" (JStr "No rating")) (fun rating =>
  Ok (results ++ [mkRecord claim_text claim_date name title url rating])))))).

(** The outer loop body: the reviews of one claim. *)
Definition claim_records (results : list FactCheckRecord) (claim : json)
  : result (list FactCheckRecord) :=
  rbind (json_get claim "text" (JStr "No claim text")) (fun claim_text =>
  rbind (json_get claim "claimDate" (JStr "Unknown date")) (fun claim_date =>
  rbind (json_get claim "claimReview" (JList [])) (fun reviews =>
  rbind (json_iter reviews) (fun reviews =>
  fold_result (review_record claim_text claim_date) reviews results)))).

(** The two nested loops of [search_fact_checks] over the decoded body. *)
Definition flatten_response (data : json) : result (list FactCheckRecord) :=
  rbind (json_get data "claims" (JList [])) (fun claims =>
  rbind (json_iter claims) (fun claims =>
  fold_result claim_records claims [])).

Section Aggregator.
Context {C : Collaborators}.
Local Open Scope py_scope.

Definition search_fact_checks (query : pyval) (language : string) (max_results : Z)
  : M trace (list FactCheckRecord) :=
  response <- call (CallSearch query language max_results)
                   (fun tr => factcheck_get tr query language max_results) ;;
  if negb (status_code response =? 200)
  then raise (PyExc "Exception"
                ("Error: " ++ str_of_int (status_code response)
                 ++ " - " ++ resp_text response)%string)
  else
    data <- of_result (resp_json response) ;;
    of_result (flatten_response data).

End Aggregator.

(* ================================================================== *)
(** * Automated assessment: [llm_fact_checker.py]                       *)
(* ================================================================== *)

Section Assessment.
Context {C : Collaborators}.

Definition fact_check (paragraph : string) : M trace string :=
  let prompt := build_factcheck_prompt paragraph 2 "json" in
  call (CallAssessmentLLM prompt) (fun tr => generate_response_with_search tr prompt).

End Assessment.

(* ================================================================== *)
(** * The route [index] of [app.py]                                     *)
(* ================================================================== *)

(** The part of a Flask request that [index] reads. *)
Record request : Type := mkRequest {
  method : string;
  form_user_input : option string     (* [request.form.get("user_input")] *)
}.

(** The local variables of [index]; they are also the arguments of
    [render_template], so the rendered page is their final value. *)
Record page : Type := mkPage {
  text : option string;
  warnings : list string;
  raw_input : string;
  factcheck : option json;
  fact_checks : option (list FactCheckRecord);
  claim_worthy : option (list scored_sentence)
}.

Definition initial_locals : page :=
  {| text := None; warnings := []; raw_input := ""; factcheck := None;
     fact_checks := None; claim_worthy := None |}.

Definition set_text (v : string) (L : page) : page :=
  mkPage (Some v) (warnings L) (raw_input L) (factcheck L) (fact_checks L) (claim_worthy L).
Definition set_warnings (v : list string) (L : page) : page :=
  mkPage (text L) v (raw_input L) (factcheck L) (fact_checks L) (claim_worthy L).
Definition set_raw_input (v : string) (L : page) : page :=
  mkPage (text L) (warnings L) v (factcheck L) (fact_checks L) (claim_worthy L).
Definition set_factcheck (v : json) (L : page) : page :=
  mkPage (text L) (warnings L) (raw_input L) (Some v) (fact_checks L) (claim_worthy L).
Definition set_fact_checks (v : list FactCheckRecord) (L : page) : page :=
  mkPage (text L) (warnings L) (raw_input L) (factcheck L) (Some v) (claim_worthy L).
Definition set_claim_worthy (v : list scored_sentence) (L : page) : page :=
  mkPage (text L) (warnings L) (raw_input L) (factcheck L) (fact_checks L) (Some v).

(** Run a computation on the trace inside a function with locals [L]. *)
Definition lift {L A} (m : M trace A) : M (L * trace) A :=
  fun s => let (r, tr') := m (snd s) in (r, (fst s, tr')).

(** An assignment to a local variable. *)
Definition assign {L} (f : L -> L) : M (L * trace) unit :=
  fun s => (Ok tt, (f (fst s), snd s)).

Section Orchestrator.
Context {C : Collaborators}.
Local Open Scope py_scope.

(** The loop [for claim in claim_list] of [index]. *)
Definition index_search_loop (claims : list pyval) : M (page * trace) unit :=
  for_each claims (fun claim =>
    results <- lift (search_fact_checks claim "en" 5) ;;
    assign (set_fact_checks results) ;;;
    lift (emit (PrintFactChecks results))).

(** The body of the [try] block of [index]. *)
Definition index_try (raw : string) : M (page * trace) unit :=
  r <- lift (call (CallProcessInput raw) (fun tr => process_input tr raw)) ;;
  let extracted_text := fst r in
  let w := snd r in
  assign (set_text extracted_text) ;;;
  factcheckText <- lift (fact_check extracted_text) ;;
  fc <- lift (of_result (json_loads factcheckText)) ;;
  assign (set_factcheck fc) ;;;
  cw <- lift (top_checkworthy_sentences extracted_text None 3) ;;
  assign (set_claim_worthy cw) ;;;
  claims <- lift (extract_claims extracted_text) ;;
  claim_list <- lift (of_result (literal_eval claims)) ;;
  lift (emit (PrintClaimList claim_list)) ;;;
  items <- lift (of_result (py_iter claim_list)) ;;
  index_search_loop items ;;;
  assign (set_warnings w).

Definition index_body (req : request) : M (page * trace) unit :=
  if String.eqb (method req) "POST" then
    let raw := match form_user_input req with Some v => v | None => "" end in
    assign (set_raw_input raw) ;;;
    if str_truthy raw then
      try_except (index_try raw)
                 (fun e => lift (emit (Flash (str_of_exn e) "error")))
    else ret tt
  else ret tt.

(** [index]: the page handed to [render_template], or the exception
    that leaves the route. *)
Definition index (req : request) : M trace page :=
  fun tr =>
    match index_body req (initial_locals, tr) with
    | (Ok _, (L, tr')) => (Ok L, tr')
    | (Raise e, (_, tr')) => (Raise e, tr')
    end.

(** ** The script [google_fact_check/fact_check.py] *)



End Orchestrator.

(* ================================================================== *)
(** * Sample collaborators                                              *)
(* ================================================================== *)

Module Sample.

Definition json_text (v : json) : string :=
  match v with JStr s => s | _ => "" end.

(** Agrees with [json.dumps] on [null], booleans and integers. *)
Definition dumps (v : json) : string :=
  match v with
  | JNull => "null"
  | JBool true => "true"
  | JBool false => "false"
  | JInt n => str_of_int n
  | _ => "..."
  end.

(** Agrees with [ast.literal_eval] on the four texts it is used on. *)
Definition parse_literal (s : string) : result pyval :=
  if String.eqb s "['a', 'b']" then Ok (PyList [PyStr "a"; PyStr "b"])
  else if String.eqb s "'ab'" then Ok (PyStr "ab")
  else if String.eqb s "[]" then Ok (PyList [])
  else Raise (PyExc "SyntaxError" "invalid syntax (<unknown>, line 1)").

(** A world given by its API key, its scoring service, the text the
    extraction model answers and its search service.  The tokenizer
    data is missing, so the segmenter uses its fallback. *)
Definition world (key : option string)
           (scoring : string -> result response)
           (llm_text : string)
           (search : pyval -> result response) : Collaborators :=
  {| getenv_CLAIMBUSTER_API_KEY := key;
     sent_tokenize := fun _ => Raise (PyExc "LookupError" "Resource punkt not found.");
     claimbuster_post := fun _ _ input_text => scoring input_text;
     http_error_str := fun r => (str_of_int (status_code r) ++ " Error")%string;
     json_dumps := dumps;
     float_of_int := fun n => Ok (FFin (inject_Z n));
     build_prompt_to_extract_Claims :=
       fun l => ("Extract the claims: " ++ join_space (map json_text l))%string;
     generate_response_40 := fun _ _ => Ok llm_text;
     build_factcheck_prompt := fun p _ _ => ("Fact-check: " ++ p)%string;
     generate_response_with_search := fun _ _ => Ok "{}";
     json_loads := fun _ => Ok (JDict []);
     literal_eval := parse_literal;
     factcheck_get := fun _ q _ _ => search q;
     process_input := fun _ raw => Ok (raw, []);
     transcribe_youtube := fun _ => Ok "Coffee dehydrates you. The WHO was founded in 1948."
  |}.

Definition http_ok (data : json) : result response :=
  Ok (mkResponse 200 "" (Ok data)).

Definition http_error (status : Z) : result response :=
  Ok (mkResponse status "failure" (Raise (PyExc "JSONDecodeError" "Expecting value"))).

(** The scores of the scenario of the specification. *)
Definition scores : json :=
  JList [JDict [("sentence", JStr "Coffee dehydrates you."); ("score", JFloat (FFin (7 # 10)))];
         JDict [("sentence", JStr "The WHO was founded in 1948."); ("score", JFloat (FFin (9 # 10)))]].

Definition review_a : json :=
  JDict [("publisher", JDict [("name", JStr "Checker")]);
         ("url", JStr "https://example.org/a");
         ("textualRating", JStr "False")].

(** One claim with one review for the query ['a'], nothing otherwise. *)
Definition search_a_only (q : pyval) : result response :=
  match q with
  | PyStr "a" => http_ok (JDict [("claims", JList [JDict [("text", JStr "a"); ("claimReview", JList [review_a])]])])
  | _ => http_ok (JDict [])
  end.

(** The search fails for ['a'] and finds one review for anything else. *)
Definition search_a_fails (q : pyval) : result response :=
  match q with
  | PyStr "a" => http_error 500
  | _ => http_ok (JDict [("claims", JList [JDict [("claimReview", JList [review_a])]])])
  end.

Definition paragraph : string :=
  "Coffee dehydrates you. The WHO was founded in 1948.".

Definition post : request := mkRequest "POST" (Some paragraph).

Definition good : Collaborators :=
  world (Some "k") (fun _ => http_ok scores) "['a', 'b']" search_a_only.

Definition search_down : Collaborators :=
  world (Some "k") (fun _ => http_ok scores) "['a', 'b']" search_a_fails.

Definition prose_answer : Collaborators :=
  world (Some "k") (fun _ => http_ok scores) "The claims are a and b." search_a_only.

Definition string_answer : Collaborators :=
  world (Some "k") (fun _ => http_ok scores) "'ab'" search_a_only.

Definition no_key : Collaborators :=
  world None (fun _ => http_ok scores) "[]" search_a_only.

Definition scoring_down : Collaborators :=
  world (Some "k") (fun _ => http_error 500) "[]" search_a_only.

Definition scoring_scalar : Collaborators :=
  world (Some "k") (fun _ => http_ok (JInt 7)) "[]" search_a_only.

Definition scoring_redirect : Collaborators :=
  world (Some "k") (fun _ => Ok (mkResponse 301 "" (Ok (JList [])))) "[]" search_a_only.

Definition scoring_odd_list : Collaborators :=
  world (Some "k") (fun _ => http_ok (JList [JInt 1; JStr "x"])) "[]" search_a_only.

End Sample.


(* ================================================================== *)
(** * What the specification asks for                                   *)
(* ================================================================== *)

(** Every whitespace character is a single space that is not followed
    by another whitespace character. *)
Fixpoint single_spaced (l : list ascii) : bool :=
  match l with
  | [] => true
  | c :: r =>
      (if is_space c
       then Ascii.eqb c " " && match r with
                               | d :: _ => negb (is_space d)
                               | [] => true
                               end
       else true)
      && single_spaced r
  end.

(** The head of a list of characters is not whitespace. *)
Definition head_not_space (l : list ascii) : Prop :=
  match l with c :: _ => is_space c = false | [] => True end.

(** Whitespace is collapsed: no leading whitespace and single spaces only. *)
Definition whitespace_collapsed (s : string) : bool :=
  match chars s with
  | c :: _ => negb (is_space c)
  | [] => true
  end && single_spaced (chars s).

(** A sentence as the segmenter must produce it. *)
Definition well_formed_sentence (s : string) : Prop :=
  s <> "" /\ (exists p, s = (p ++ ".")%string) /\ whitespace_collapsed s = true.

(** What becomes of one unit, in the words of the specification: its
    whitespace is collapsed, an empty unit is dropped, a trailing [!] or
    [?] is rewritten to a period, and a period is appended when no
    terminator is there. *)
Definition normalized_unit (u : string) : list string :=
  let c := strip (re_sub_ws u) in
  match rev (chars c) with
  | [] => []
  | final :: before =>
      if Ascii.eqb final "." then [c]
      else if Ascii.eqb final "!" || Ascii.eqb final "?"
           then [(str (rev before) ++ ".")%string]
           else [(c ++ ".")%string]
  end.

(** ** The flat records of a search response *)

(** The field [key] of an object, or its sentinel when the field is missing. *)
Definition field_or (obj : json) (key sentinel : string) : json :=
  match obj with
  | JDict items =>
      match dict_lookup items key with
      | Some v => v
      | None => JStr sentinel
      end
  | _ => JStr sentinel
  end.

(** The name of the publisher of a review. *)
Definition publisher_name (review : json) : json :=
  match review with
  | JDict items =>
      match dict_lookup items "publisher" with
      | Some publisher => field_or publisher "name" "Unknown publisher"
      | None => JStr "Unknown publisher"
      end
  | _ => JStr "Unknown publisher"
  end.

(** The record of one review of one claim. *)
Definition record_of (claim review : json) : FactCheckRecord :=
  {| fc_claim := field_or claim "text" "No claim text";
     fc_date := field_or claim "claimDate" "Unknown date";
     fc_publisher := publisher_name review;
     fc_title := field_or review "title" "No title";
     fc_url := field_or review "url" "No URL";
     fc_rating := field_or review "textualRating" "No rating" |}.

(** The claim objects of a response and the review objects of a claim. *)
Definition claims_of (data : json) : list json :=
  match data with
  | JDict items =>
      match dict_lookup items "claims" with Some (JList cs) => cs | _ => [] end
  | _ => []
  end.

Definition reviews_of (claim : json) : list json :=
  match claim with
  | JDict items =>
      match dict_lookup items "claimReview" with Some (JList rs) => rs | _ => [] end
  | _ => []
  end.

(** The nested claim/review structure of the search collaborator: an
    object whose [claims], when present, is a list of objects, whose
    [claimReview], when present, is a list of objects, whose
    [publisher], when present, is an object. *)
Definition well_formed_review (review : json) : bool :=
  match review with
  | JDict items =>
      match dict_lookup items "publisher" with
      | None | Some (JDict _) => true
      | _ => false
      end
  | _ => false
  end.

Definition well_formed_claim (claim : json) : bool :=
  match claim with
  | JDict items =>
      match dict_lookup items "claimReview" with
      | None => true
      | Some (JList rs) => forallb well_formed_review rs
      | _ => false
      end
  | _ => false
  end.

Definition well_formed_response (data : json) : bool :=
  match data with
  | JDict items =>
      match dict_lookup items "claims" with
      | None => true
      | Some (JList cs) => forallb well_formed_claim cs
      | _ => false
      end
  | _ => false
  end.

(** ** The response shapes of the scoring collaborator *)

(** An object with a sentence and a numeric score. *)
Definition sentence_score_pair (item : json) : bool :=
  match item with
  | JDict d =>
      match dict_lookup d "sentence", dict_lookup d "score" with
      | Some (JStr _), Some v => is_number v
      | _, _ => false
      end
  | _ => false
  end.

(** The two shapes the specification names: a sequence of sentence and
    score pairs, or a mapping from sentence text to score. *)
Definition recognized_shape (data : json) : bool :=
  match data with
  | JList items => forallb sentence_score_pair items
  | JDict d => forallb (fun kv => is_number (snd kv)) d
  | _ => false
  end.

(** A success status: 2xx. *)
Definition success_status (resp : response) : bool :=
  (200 <=? status_code resp) && (status_code resp <? 300).

(** ** Observing a run *)


Definition is_extraction_call (e : event) : bool :=
  match e with CallExtractionLLM _ => true | _ => false end.

Definition is_search_call (e : event) : bool :=
  match e with CallSearch _ _ _ => true | _ => false end.

Definition is_flash (e : event) : bool :=
  match e with Flash _ _ => true | _ => false end.


(** The fact-check searches in a trace, in order. *)
Definition search_calls (tr : trace) : list event := filter is_search_call tr.

(** A computation is silent for a kind of events when it never adds one
    to the trace, whatever its outcome; [proj] finds the trace in the state. *)
Definition silent {S A} (p : event -> bool) (proj : S -> trace) (m : M S A) : Prop :=
  forall s, filter p (proj (snd (m s))) = filter p (proj s).

(** The query of every search, as the route issues it. *)
Definition search_event (query : pyval) : event := CallSearch query "en" 5.

(** A list of strings, which is what the claim list should be. *)
Definition is_list_of_strings (v : pyval) : bool :=
  match v with
  | PyList items =>
      forallb (fun x => match x with PyStr _ => true | _ => false end) items
  | _ => false
  end.

(* ================================================================== *)
(** * Further definitions                                               *)
(* ================================================================== *)

(** The object [{"sentence": s, "score": f}] of the scoring collaborator. *)
Definition pair_object (p : string * pyfloat) : json :=
  JDict [("sentence", JStr (fst p)); ("score", JFloat (snd p))].

(** The internal representation of a scored sentence. *)
Definition scored_pair (p : string * pyfloat) : scored_sentence :=
  (JStr (fst p), snd p).



(* ================================================================== *)
(** * File names and transcription: [youtube_transcriber.py]            *)
(* ================================================================== *)

Module YoutubeTranscriber.

(** The characters [_SAFE_CHARS_RE] keeps: [[a-zA-Z0-9._ -]]. *)
Definition is_safe_char (c : ascii) : bool :=
  let n := N_of_ascii c in
  (((97 <=? n) && (n <=? 122)) || ((65 <=? n) && (n <=? 90))
   || ((48 <=? n) && (n <=? 57))
   || (n =? 46) || (n =? 95) || (n =? 32) || (n =? 45))%N.

Definition slash : ascii := ascii_of_nat 47.
Definition backslash : ascii := ascii_of_nat 92.

(** [s.replace(a, b)] for single characters. *)
Definition replace_char (a b : ascii) (l : list ascii) : list ascii :=
  map (fun c => if Ascii.eqb c a then b else c) l.

Definition _sanitize (s : string) : string :=
  let s := str (replace_char backslash "-" (replace_char slash "-" (chars (strip s)))) in
  let s := str (filter is_safe_char (chars s)) in
  strip (re_sub_ws s).

(** [_DownloadResult] *)
Record DownloadResult : Type := mkDownload {
  audio_path : string;
  title : string
}.

(** What a run of [transcribe_youtube] does to the outside. *)
Inductive t_event : Type :=
| DownloadAudio (youtube_url : string) (ffmpeg_location : option string)
| TranscribeWhisper (path model : string)
| TranscribeFasterWhisper (path model : string)
| MakePersistDir
| MoveAudio (src file_name : string)
| LogInfo (file_name : string)
| LogDebug (message : string).

(** The parts of the module that are calls into [yt_dlp], the Whisper
    engines and the file system.  [download_audio_to_temp] stands for
    [_download_audio_to_temp] in the fresh temporary directory, whose
    creation and removal by [tempfile] are not modelled. *)
Class Transcription : Type := {
  download_audio_to_temp : string -> option string -> result DownloadResult;
  transcribe_with_whisper : string -> string -> result string;
  transcribe_with_faster_whisper : string -> string -> result string;
  (* [persist_dir.mkdir(exist_ok=True)] under [Path.cwd()] *)
  make_persist_dir : result unit;
  (* [path.suffix] *)
  path_suffix : string -> string;
  (* [dl.audio_path.replace(target)], the target given by its file name *)
  replace_audio : string -> string -> result unit
}.

Definition t_call {A} (e : t_event) (r : result A) : M (list t_event) A :=
  fun tr => (r, tr ++ [e]).

Definition t_emit (e : t_event) : M (list t_event) unit :=
  fun tr => (Ok tt, tr ++ [e]).

(** [try: body / finally: cleanup]: the cleanup always runs; what it
    raises replaces the outcome of the body. *)
Definition try_finally {S A} (body : M S A) (cleanup : M S unit) : M S A :=
  fun s =>
    let (r, s1) := body s in
    match cleanup s1 with
    | (Ok _, s2) => (r, s2)
    | (Raise e, s2) => (Raise e, s2)
    end.

Definition double_quote : string := String (ascii_of_nat 34) EmptyString.

Definition engine_message : string :=
  ("engine must be one of: " ++ double_quote ++ "faster-whisper" ++ double_quote
   ++ ", " ++ double_quote ++ "whisper" ++ double_quote)%string.

Section Transcribe.
Context {T : Transcription}.
Local Open Scope py_scope.

(** [_sanitize(dl.title) or "audio"] followed by the suffix of the audio file. *)
Definition kept_file_name (dl : DownloadResult) : string :=
  let safe_name := let s := _sanitize (title dl) in
                   if str_truthy s then s else "audio" in
  (safe_name ++ path_suffix (audio_path dl))%string.

(** The body of [if keep_temp:] in the [finally] block. *)
Definition keep_audio (dl : DownloadResult) : M (list t_event) unit :=
  t_call MakePersistDir make_persist_dir ;;;
  let file_name := kept_file_name dl in
  try_except
    (t_call (MoveAudio (audio_path dl) file_name)
            (replace_audio (audio_path dl) file_name) ;;;
     t_emit (LogInfo file_name))
    (fun e => t_emit (LogDebug (str_of_exn e))).

Definition transcribe_youtube (youtube_url engine model : string)
           (ffmpeg_location : option string) (keep_temp : bool)
  : M (list t_event) string :=
  if negb (String.eqb engine "faster-whisper" || String.eqb engine "whisper")
  then raise (PyExc "ValueError" engine_message)
  else
    dl <- t_call (DownloadAudio youtube_url ffmpeg_location)
                 (download_audio_to_temp youtube_url ffmpeg_location) ;;
    try_finally
      (if String.eqb engine "whisper"
       then t_call (TranscribeWhisper (audio_path dl) model)
                   (transcribe_with_whisper (audio_path dl) model)
       else t_call (TranscribeFasterWhisper (audio_path dl) model)
                   (transcribe_with_faster_whisper (audio_path dl) model))
      (if keep_temp then keep_audio dl else ret tt).

End Transcribe.

End YoutubeTranscriber.

(* ================================================================== *)
(** * Readable text from a web page: [text_from_web.py]                 *)
(* ================================================================== *)

Module TextFromWeb.

(** [MIN_CHARS_PER_LINE] *)
Definition MIN_CHARS_PER_LINE : nat := 30.

Definition paywall_markers : list string :=
  ["subscribe"; "subscription"; "subscriber-only"; "for subscribers";
   "log in to continue"; "sign in to continue"; "metered"; "paywall"].

(** [c.lower()] for the code points below 256. *)
Definition lower_char (c : ascii) : ascii :=
  let n := N_of_ascii c in
  if (((65 <=? n) && (n <=? 90)) || ((192 <=? n) && (n <=? 214))
      || ((216 <=? n) && (n <=? 222)))%N
  then ascii_of_N (n + 32) else c.

(** [s.lower()] *)
Definition lower (s : string) : string := str (map lower_char (chars s)).

(** [c.isalpha()] for the code points below 256. *)
Definition is_alpha (c : ascii) : bool :=
  let n := N_of_ascii c in
  (((65 <=? n) && (n <=? 90)) || ((97 <=? n) && (n <=? 122))
   || (n =? 170) || (n =? 181) || (n =? 186)
   || ((192 <=? n) && (n <=? 214)) || ((216 <=? n) && (n <=? 246))
   || ((248 <=? n) && (n <=? 255)))%N.

(** [m in s] on the characters. *)
Fixpoint contains_chars (m l : list ascii) : bool :=
  starts_with m l || match l with
                     | [] => false
                     | _ :: r => contains_chars m r
                     end.

Definition contains (m s : string) : bool := contains_chars (chars m) (chars s).

(** The line boundaries of [str.splitlines]: LF, VT, FF, FS, GS, RS and
    NEL; CR is handled apart because of CR LF. *)
Definition is_line_break (c : ascii) : bool :=
  let n := N_of_ascii c in
  ((n =? 10) || (n =? 11) || (n =? 12) || (n =? 28) || (n =? 29) || (n =? 30)
   || (n =? 133))%N.

Definition is_cr (c : ascii) : bool := (N_of_ascii c =? 13)%N.
Definition is_lf (c : ascii) : bool := (N_of_ascii c =? 10)%N.

(** [s.splitlines()]; [cur] holds the current line, reversed. *)
Fixpoint splitlines_chars (cur : list ascii) (l : list ascii) : list (list ascii) :=
  match l with
  | [] => match cur with [] => [] | _ => [rev cur] end
  | c :: r =>
      if is_cr c then
        match r with
        | d :: r' => if is_lf d then rev cur :: splitlines_chars [] r'
                     else rev cur :: splitlines_chars [] r
        | [] => rev cur :: splitlines_chars [] r
        end
      else if is_line_break c then rev cur :: splitlines_chars [] r
      else splitlines_chars (c :: cur) r
  end.

Definition splitlines (s : string) : list string :=
  map str (splitlines_chars [] (chars s)).

(** ["\n".join(items)] *)
Definition newline : string := String (ascii_of_nat 10) EmptyString.

Fixpoint join_newline (items : list string) : string :=
  match items with
  | [] => ""
  | [s] => s
  | s :: rest => (s ++ newline ++ join_newline rest)%string
  end.

(** A line that looks like real content. *)
Definition keep_line (ln : string) : bool :=
  str_truthy ln && (MIN_CHARS_PER_LINE <=? String.length ln)%nat
  && existsb is_alpha (chars ln).

(** One turn of the loop that drops a line equal to the one before. *)
Definition dedupe_step (deduped : list string) (ln : string) : list string :=
  match deduped with
  | [] => deduped ++ [ln]
  | _ => if negb (String.eqb ln (last deduped "")) then deduped ++ [ln] else deduped
  end.

(** What holds of every line that is kept. *)
Definition kept_line (ln : string) : Prop :=
  keep_line ln = true /\ single_spaced (chars ln) = true
  /\ head_not_space (chars ln) /\ head_not_space (rev (chars ln)).

(** The lines of [extract_readable_text] before they are joined. *)
Definition readable_lines (raw : string) : list string :=
  let lines := map (fun ln => strip (re_sub_ws ln)) (splitlines raw) in
  let lines := filter keep_line lines in
  fold_left dedupe_step lines [].

(** A response of [requests] as [fetch_html] uses it. *)
Record web_response : Type := mkWebResponse {
  web_status : Z;
  web_encoding : option string;            (* [r.encoding] *)
  web_apparent_encoding : option string;   (* [r.apparent_encoding] *)
  web_text : option string -> string       (* [r.text] under a value of [r.encoding] *)
}.

(** The parts that are calls into [requests] and [BeautifulSoup].
    [soup_texts html] gives, for the document without the blocked and the
    hidden elements, [get_text(" ", strip=True)] and [get_text("\n")]. *)
Class Web : Type := {
  session_get : string -> Z -> result web_response;
  web_http_error_str : web_response -> string;
  soup_texts : string -> result (string * string)
}.

(** [_fix_encoding]; the response is updated in place. *)
Definition _fix_encoding (resp : web_response) : web_response :=
  let enc := lower (match web_encoding resp with Some e => e | None => "" end) in
  if negb (str_truthy enc) || String.eqb enc "iso-8859-1"
  then mkWebResponse (web_status resp) (web_apparent_encoding resp)
                     (web_apparent_encoding resp) (web_text resp)
  else resp.

Definition blocked_status (status : Z) : bool :=
  (status =? 401) || (status =? 402) || (status =? 403) || (status =? 451).

Section Web.
Context {W : Web}.

Definition fetch_html (url : string) (timeout : Z) : result string :=
  rbind (session_get url timeout) (fun r =>
  if blocked_status (web_status r)
  then Raise (PyExc "SkippedArticle"
                ("Skipped (HTTP " ++ str_of_int (web_status r)
                 ++ "): access not permitted.")%string)
  else if (400 <=? web_status r) && (web_status r <? 600)
  then Raise (PyExc "HTTPError" (web_http_error_str r))
  else let r := _fix_encoding r in
       Ok (web_text r (web_encoding r))).

Definition extract_readable_text (html : string) : result string :=
  rbind (soup_texts html) (fun texts =>
  let page_text_lower := lower (fst texts) in
  if existsb (fun m => contains m page_text_lower) paywall_markers
  then Raise (PyExc "SkippedArticle" "Skipped: detected paywall copy in page.")
  else Ok (join_newline (readable_lines (snd texts)))).


End Web.

End TextFromWeb.

(** No line is equal to the line before it. *)
Fixpoint no_repeated_line (lines : list string) : bool :=
  match lines with
  | a :: ((b :: _) as rest) => negb (String.eqb a b) && no_repeated_line rest
  | _ => true
  end.

(** * Sample collaborators for the two modules *)

Module SampleMedia.

Definition transcription (move_ok : bool) : YoutubeTranscriber.Transcription :=
  {| YoutubeTranscriber.download_audio_to_temp :=
       fun url _ =>
         if String.eqb url "https://youtu.be/gone"
         then Raise (PyExc "DownloadError" "Video unavailable")
         else Ok (YoutubeTranscriber.mkDownload "/tmp/yt-transcribe-1/My Talk.webm" "My Talk");
     YoutubeTranscriber.transcribe_with_whisper := fun _ _ => Ok "Coffee dehydrates you.";
     YoutubeTranscriber.transcribe_with_faster_whisper :=
       fun _ _ => Raise (PyExc "RuntimeError" "model not found");
     YoutubeTranscriber.make_persist_dir := Ok tt;
     YoutubeTranscriber.path_suffix := fun _ => ".webm";
     YoutubeTranscriber.replace_audio :=
       fun _ _ => if move_ok then Ok tt
                  else Raise (PyExc "OSError" "Invalid cross-device link") |}.

Definition page (status : Z) (page_text raw : string) : TextFromWeb.Web :=
  {| TextFromWeb.session_get :=
       fun _ _ => Ok (TextFromWeb.mkWebResponse status (Some "ISO-8859-1") (Some "utf-8")
                        (fun enc => match enc with
                                    | Some "utf-8" => "<html>decoded as utf-8</html>"
                                    | _ => "<html>decoded otherwise</html>"
                                    end));
     TextFromWeb.web_http_error_str := fun r => (str_of_int (TextFromWeb.web_status r) ++ " Error")%string;
     TextFromWeb.soup_texts := fun _ => Ok (page_text, raw) |}.

End SampleMedia.

(* ================================================================== *)
(** * Properties                                                        *)
(* ================================================================== *)

(** ** The order on floats *)

Lemma Qle_bool_false (a b : Q) : Qle_bool a b = false -> (b < a)%Q.
Proof.
  intros H. destruct (Qlt_le_dec b a) as [Hlt | Hle]; [exact Hlt |].
  apply Qle_bool_iff in Hle. congruence.
Qed.

Lemma Qle_bool_false_intro (a b : Q) : (b < a)%Q -> Qle_bool a b = false.
Proof.
  intros H. destruct (Qle_bool a b) eqn:E; [| reflexivity].
  apply Qle_bool_iff in E. lra.
Qed.

Lemma Qeq_bool_false_intro (a b : Q) : ~ (a == b)%Q -> Qeq_bool a b = false.
Proof.
  intros H. destruct (Qeq_bool a b) eqn:E; [| reflexivity].
  apply Qeq_bool_iff in E. contradiction.
Qed.

(** Turn boolean comparisons of rationals into propositions and decide. *)
Ltac q_props :=
  repeat match goal with
         | H : negb _ = true |- _ => apply negb_true_iff in H
         | H : negb _ = false |- _ => apply negb_false_iff in H
         | H : Qle_bool _ _ = true |- _ => apply Qle_bool_iff in H
         | H : Qle_bool _ _ = false |- _ => apply Qle_bool_false in H
         | H : Qeq_bool _ _ = true |- _ => apply Qeq_bool_iff in H
         | H : Qeq_bool _ _ = false |- _ => apply Qeq_bool_neq in H
         | |- negb _ = true => apply negb_true_iff
         | |- negb _ = false => apply negb_false_iff
         | |- Qle_bool _ _ = true => apply Qle_bool_iff
         | |- Qle_bool _ _ = false => apply Qle_bool_false_intro
         | |- Qeq_bool _ _ = true => apply Qeq_bool_iff
         | |- Qeq_bool _ _ = false => apply Qeq_bool_false_intro
         end.

Ltac float_cases :=
  intros;
  repeat match goal with x : pyfloat |- _ => destruct x end;
  simpl in *; try discriminate; try reflexivity;
  q_props; try lra.

Lemma float_ge_not_nan (x y : pyfloat) :
  float_ge x y = true -> float_is_nan x = false /\ float_is_nan y = false.
Proof. float_cases; split; reflexivity. Qed.

Lemma float_lt_ge (x y : pyfloat) : float_lt y x = true -> float_ge x y = true.
Proof. float_cases. Qed.

Lemma float_not_lt_ge (x y : pyfloat) :
  float_is_nan x = false -> float_is_nan y = false ->
  float_lt y x = false -> float_ge y x = true.
Proof. float_cases. Qed.

Lemma float_ge_trans (x y z : pyfloat) :
  float_ge x y = true -> float_ge y z = true -> float_ge x z = true.
Proof. float_cases. Qed.

Lemma float_ge_lt (x y : pyfloat) : float_ge x y = true -> float_lt x y = false.
Proof. float_cases. Qed.

Lemma float_lt_neq (x y s : pyfloat) :
  float_lt y x = true -> float_eqb x s = true -> float_eqb y s = false.
Proof. float_cases. Qed.

Lemma float_eqb_ge (x s t : pyfloat) :
  float_eqb x s = true -> float_ge x t = float_ge s t.
Proof.
  float_cases.
  match goal with |- Qle_bool ?a ?b = Qle_bool ?a ?c =>
    destruct (Qle_bool a b) eqn:E1; destruct (Qle_bool a c) eqn:E2
  end; try reflexivity; q_props; lra.
Qed.

(** ** Lists *)

Lemma StronglySorted_snoc {A} (R : A -> A -> Prop) (l : list A) (x : A) :
  StronglySorted R l -> Forall (fun y => R y x) l -> StronglySorted R (l ++ [x]).
Proof.
  induction 1 as [| a l Hs IH Ha]; intros Hx; simpl.
  - constructor; constructor.
  - inversion Hx; subst. constructor.
    + apply IH; assumption.
    + apply Forall_app; split; [assumption | constructor; [assumption | constructor]].
Qed.

Lemma StronglySorted_rev {A} (R : A -> A -> Prop) (l : list A) :
  StronglySorted R l -> StronglySorted (fun a b => R b a) (rev l).
Proof.
  induction 1 as [| a l Hs IH Ha]; simpl.
  - constructor.
  - apply StronglySorted_snoc; [exact IH |].
    apply Forall_rev. exact Ha.
Qed.

Lemma StronglySorted_firstn {A} (R : A -> A -> Prop) (n : nat) (l : list A) :
  StronglySorted R l -> StronglySorted R (firstn n l).
Proof.
  revert l. induction n as [| n IH]; intros l Hs; simpl.
  - constructor.
  - destruct l as [| a l]; [constructor |].
    inversion Hs; subst. constructor.
    + apply IH; assumption.
    + rewrite <- (firstn_skipn n l) in H2. apply Forall_app in H2. tauto.
Qed.

Lemma Forall_firstn {A} (P : A -> Prop) (n : nat) (l : list A) :
  Forall P l -> Forall P (firstn n l).
Proof.
  intros H. rewrite <- (firstn_skipn n l) in H. apply Forall_app in H. tauto.
Qed.

Lemma filter_filter_keep {A} (p q : A -> bool) (l : list A) :
  (forall x, p x = true -> q x = true) -> filter p (filter q l) = filter p l.
Proof.
  intros H. induction l as [| a l IH]; simpl; [reflexivity |].
  destruct (q a) eqn:Eq; simpl.
  - rewrite IH. reflexivity.
  - destruct (p a) eqn:Ep; [| exact IH].
    apply H in Ep. congruence.
Qed.

Lemma filter_filter_none {A} (p q : A -> bool) (l : list A) :
  (forall x, p x = true -> q x = false) -> filter p (filter q l) = [].
Proof.
  intros H. induction l as [| a l IH]; simpl; [reflexivity |].
  destruct (q a) eqn:Eq; simpl; [| exact IH].
  destruct (p a) eqn:Ep; [| exact IH].
  apply H in Ep. congruence.
Qed.

(** ** The sort *)

Section SortFacts.
Variable T : Type.
Variable key : T -> pyfloat.

Let ascending (a b : T) : Prop := float_ge (key b) (key a) = true.
Let not_nan (a : T) : Prop := float_is_nan (key a) = false.

Lemma insert_by_key_Forall (P : T -> Prop) (x : T) (l : list T) :
  P x -> Forall P l -> Forall P (insert_by_key key x l).
Proof.
  intros Hx Hl. induction Hl as [| y r Hy Hr IH]; simpl.
  - constructor; [assumption | constructor].
  - destruct (float_lt (key y) (key x)); constructor; auto.
Qed.

Lemma stable_sort_Forall (P : T -> Prop) (l : list T) :
  Forall P l -> Forall P (stable_sort key l).
Proof.
  induction 1; simpl; [constructor | apply insert_by_key_Forall; assumption].
Qed.

Lemma insert_by_key_sorted (x : T) (l : list T) :
  not_nan x -> Forall not_nan l ->
  StronglySorted ascending l -> StronglySorted ascending (insert_by_key key x l).
Proof.
  intros Hx Hnan Hs. induction Hs as [| y r Hs IH Hy]; simpl.
  - constructor; constructor.
  - inversion Hnan; subst.
    destruct (float_lt (key y) (key x)) eqn:E.
    + constructor; [apply IH; assumption |].
      apply insert_by_key_Forall; [| assumption].
      apply float_lt_ge. exact E.
    + assert (Hxy : ascending x y) by (apply float_not_lt_ge; assumption).
      constructor; [constructor; assumption |].
      constructor; [exact Hxy |].
      eapply Forall_impl; [| exact Hy].
      intros z Hz. unfold ascending in *. eapply float_ge_trans; eassumption.
Qed.

Lemma stable_sort_sorted (l : list T) :
  Forall not_nan l -> StronglySorted ascending (stable_sort key l).
Proof.
  induction 1; simpl; [constructor |].
  apply insert_by_key_sorted; auto using stable_sort_Forall.
Qed.

(** The sort never moves an element across another of the same key. *)
Lemma insert_by_key_filter (s : pyfloat) (x : T) (l : list T) :
  filter (fun y => float_eqb (key y) s) (insert_by_key key x l)
  = filter (fun y => float_eqb (key y) s) (x :: l).
Proof.
  induction l as [| y r IH]; [reflexivity |].
  simpl. destruct (float_lt (key y) (key x)) eqn:E; [| reflexivity].
  simpl. rewrite IH. simpl.
  destruct (float_eqb (key x) s) eqn:Ex; [| reflexivity].
  rewrite (float_lt_neq _ _ _ E Ex). reflexivity.
Qed.

Lemma stable_sort_filter (s : pyfloat) (l : list T) :
  filter (fun y => float_eqb (key y) s) (stable_sort key l)
  = filter (fun y => float_eqb (key y) s) l.
Proof.
  induction l as [| x r IH]; [reflexivity |].
  simpl stable_sort. rewrite insert_by_key_filter. simpl. rewrite IH. reflexivity.
Qed.

Lemma list_sort_filter (reverse : bool) (s : pyfloat) (l : list T) :
  filter (fun y => float_eqb (key y) s) (list_sort key reverse l)
  = filter (fun y => float_eqb (key y) s) l.
Proof.
  destruct reverse; simpl; [| apply stable_sort_filter].
  rewrite filter_rev, stable_sort_filter, filter_rev. apply rev_involutive.
Qed.

Lemma list_sort_reverse_sorted (l : list T) :
  Forall not_nan l ->
  StronglySorted (fun a b => float_ge (key a) (key b) = true) (list_sort key true l).
Proof.
  intros H. simpl.
  apply (StronglySorted_rev (R := ascending)).
  apply stable_sort_sorted. apply Forall_rev. exact H.
Qed.

Lemma list_sort_Forall (P : T -> Prop) (reverse : bool) (l : list T) :
  Forall P l -> Forall P (list_sort key reverse l).
Proof.
  intros H. destruct reverse; simpl.
  - apply Forall_rev, stable_sort_Forall, Forall_rev, H.
  - apply stable_sort_Forall, H.
Qed.

Lemma insert_by_key_length (x : T) (l : list T) :
  List.length (insert_by_key key x l) = S (List.length l).
Proof.
  induction l as [| y r IH]; simpl; [reflexivity |].
  destruct (float_lt (key y) (key x)); simpl; [rewrite IH |]; reflexivity.
Qed.

Lemma list_sort_length (reverse : bool) (l : list T) :
  List.length (list_sort key reverse l) = List.length l.
Proof.
  assert (H : forall l, List.length (stable_sort key l) = List.length l).
  { induction l0 as [| x r IH]; simpl; [reflexivity |].
    rewrite insert_by_key_length, IH. reflexivity. }
  destruct reverse; simpl; [| apply H].
  rewrite length_rev, H, length_rev. reflexivity.
Qed.

End SortFacts.

(** ** C6 and C7: the ranking step *)

Lemma filter_threshold_Forall {T} (scored : list (T * pyfloat)) :
  Forall (fun x => float_ge (snd x) score_threshold = true)
         (filter (fun item => float_ge (snd item) score_threshold) scored).
Proof.
  apply Forall_forall. intros x Hx. apply filter_In in Hx. tauto.
Qed.

(** C6, as stated, fails twice: the ranking step has no threshold
    argument, so a sentence scored 0.6 is returned although it is below a
    threshold of 0.8; and for [top_k = -1] the empty answer is longer
    than [top_k]. *)
Lemma rank_scored_ignores_other_thresholds :
  ~ (forall (scored : list (string * pyfloat)) (tau : pyfloat) (top_k : Z),
        Forall (fun x => float_lt (snd x) tau = false) (rank_scored scored top_k))
  /\ ~ (forall (scored : list (string * pyfloat)) (top_k : Z),
        Z.of_nat (List.length (rank_scored scored top_k)) <= top_k).
Proof.
  split; intros H.
  - specialize (H [("Coffee dehydrates you.", FFin (6 # 10))] (FFin (8 # 10)) 3).
    vm_compute in H. inversion H; subst. discriminate.
  - specialize (H [] (-1)). vm_compute in H. apply H. reflexivity.
Qed.

(** C6, amended: the threshold is the constant 0.5.  The ranking step
    never returns a sentence whose score is below 0.5 (nor one whose score
    is NaN), never returns more than [max(0, top_k)] sentences, and never
    more than it was given; it always returns a list, possibly empty. *)
Theorem rank_scored_threshold_and_top_k :
  forall (T : Type) (scored : list (T * pyfloat)) (top_k : Z),
    Forall (fun x => float_ge (snd x) score_threshold = true
                     /\ float_lt (snd x) score_threshold = false)
           (rank_scored scored top_k)
    /\ Z.of_nat (List.length (rank_scored scored top_k)) <= Z.max 0 top_k
    /\ (List.length (rank_scored scored top_k) <= List.length scored)%nat
    /\ (0 <= top_k -> Z.of_nat (List.length (rank_scored scored top_k)) <= top_k)
    /\ rank_scored (@nil (T * pyfloat)) top_k = [].
Proof.
  intros T scored top_k. unfold rank_scored, slice_to.
  assert (Hlen : (List.length (firstn (Z.to_nat (Z.max 0 top_k))
             (list_sort (@snd T pyfloat) true
                (filter (fun item => float_ge (snd item) score_threshold) scored)))
           <= Z.to_nat (Z.max 0 top_k))%nat) by apply firstn_le_length.
  repeat split.
  - apply Forall_firstn, list_sort_Forall.
    eapply Forall_impl; [| apply filter_threshold_Forall].
    intros x Hx; split; [exact Hx | apply float_ge_lt; exact Hx].
  - lia.
  - rewrite length_firstn, list_sort_length.
    pose proof (filter_length_le (fun item : T * pyfloat => float_ge (snd item) score_threshold) scored).
    lia.
  - lia.
  - simpl. apply firstn_nil.
Qed.

(** C7: the output of the ranking step is sorted non-increasing by
    score, and the sort is stable: for every score [s], the returned
    sentences of score [s] are the first sentences of score [s] of the
    input, in their original order. *)
Theorem rank_scored_sorted_and_stable :
  forall (T : Type) (scored : list (T * pyfloat)) (top_k : Z),
    StronglySorted (fun a b => float_ge (snd a) (snd b) = true)
                   (rank_scored scored top_k)
    /\ forall s : pyfloat,
        exists rest,
          filter (fun x => float_eqb (snd x) s) scored
          = filter (fun x => float_eqb (snd x) s) (rank_scored scored top_k) ++ rest.
Proof.
  intros T scored top_k. unfold rank_scored, slice_to.
  set (kept := filter (fun item => float_ge (snd item) score_threshold) scored).
  set (sorted := list_sort (@snd T pyfloat) true kept).
  set (n := Z.to_nat (Z.max 0 top_k)).
  split.
  - apply StronglySorted_firstn. apply list_sort_reverse_sorted.
    eapply Forall_impl; [| apply filter_threshold_Forall].
    intros x Hx. apply float_ge_not_nan in Hx. tauto.
  - intros s.
    assert (Hsplit : filter (fun x => float_eqb (snd x) s) kept
                     = filter (fun x => float_eqb (snd x) s) (firstn n sorted)
                       ++ filter (fun x => float_eqb (snd x) s) (skipn n sorted)).
    { rewrite <- filter_app, firstn_skipn. unfold sorted.
      rewrite list_sort_filter. reflexivity. }
    destruct (float_ge s score_threshold) eqn:Es.
    + exists (filter (fun x => float_eqb (snd x) s) (skipn n sorted)).
      rewrite <- Hsplit. unfold kept. symmetry. apply filter_filter_keep.
      intros x Hx. rewrite (float_eqb_ge _ _ score_threshold Hx). exact Es.
    + exists (filter (fun x => float_eqb (snd x) s) scored).
      assert (Hnone : filter (fun x => float_eqb (snd x) s) kept = []).
      { unfold kept. apply filter_filter_none.
        intros x Hx. rewrite (float_eqb_ge _ _ score_threshold Hx). exact Es. }
      rewrite Hnone in Hsplit. symmetry in Hsplit.
      apply app_eq_nil in Hsplit. destruct Hsplit as [H0 _]. rewrite H0. reflexivity.
Qed.

(** ** Traces of monadic code *)

Section Silence.
Variable p : event -> bool.

Section AnyState.
Variables (S : Type) (proj : S -> trace).

Lemma silent_ret {A} (a : A) : silent p proj (ret a).
Proof. intros s. reflexivity. Qed.

Lemma silent_raise {A} (e : exn) : silent p proj (@raise S A e).
Proof. intros s. reflexivity. Qed.

Lemma silent_of_result {A} (r : result A) : silent p proj (of_result r).
Proof. intros s. reflexivity. Qed.

(** After a silent continuation the trace shows what the first part added. *)
Lemma bind_trace {A B} (m : M S A) (k : A -> M S B) (s : S) :
  (forall a, silent p proj (k a)) ->
  filter p (proj (snd (bind m k s))) = filter p (proj (snd (m s))).
Proof.
  intros Hk. unfold bind. destruct (m s) as [[a | e] s']; simpl.
  - apply Hk.
  - reflexivity.
Qed.

Lemma silent_bind {A B} (m : M S A) (k : A -> M S B) :
  silent p proj m -> (forall a, silent p proj (k a)) -> silent p proj (bind m k).
Proof.
  intros Hm Hk s. rewrite bind_trace by exact Hk. apply Hm.
Qed.


Lemma try_except_trace {A} (body : M S A) (handler : exn -> M S A) (s : S) :
  (forall e, silent p proj (handler e)) ->
  filter p (proj (snd (try_except body handler s))) = filter p (proj (snd (body s))).
Proof.
  intros Hh. unfold try_except. destruct (body s) as [[a | e] s']; simpl.
  - reflexivity.
  - destruct (is_Exception e); [apply Hh | reflexivity].
Qed.

Lemma silent_if {A} (b : bool) (m1 m2 : M S A) :
  silent p proj m1 -> silent p proj m2 -> silent p proj (if b then m1 else m2).
Proof. destruct b; auto. Qed.

End AnyState.


Lemma silent_call {A} (e : event) (oracle : trace -> result A) :
  p e = false -> silent p (fun tr => tr) (call e oracle).
Proof.
  intros He tr. unfold call. simpl.
  rewrite filter_app. simpl. rewrite He. apply app_nil_r.
Qed.




End Silence.

Lemma for_each_app {S A} (xs ys : list A) (body : A -> M S unit) (s : S) :
  for_each (xs ++ ys) body s
  = match for_each xs body s with
    | (Ok _, s') => for_each ys body s'
    | (Raise e, s') => (Raise e, s')
    end.
Proof.
  revert s. induction xs as [| x xs IH]; intros s; simpl.
  - reflexivity.
  - unfold bind. destruct (body x s) as [[u | e] s']; [apply IH | reflexivity].
Qed.

(** ** Traces of the pipeline stages *)

Section StageTraces.
Context {C : Collaborators}.

(** A search adds exactly its own call to the trace. *)
Lemma search_fact_checks_trace (query : pyval) (language : string)
      (max_results : Z) (tr : trace) :
  snd (search_fact_checks query language max_results tr)
  = tr ++ [CallSearch query language max_results].
Proof.
  unfold search_fact_checks, bind, call, raise, of_result.
  destruct (factcheck_get tr query language max_results) as [resp | e]; simpl;
    [| reflexivity].
  destruct (negb (status_code resp =? 200)); simpl; [reflexivity |].
  destruct (resp_json resp); reflexivity.
Qed.


(** The scorer adds at most the call to the scoring collaborator. *)
Lemma score_sentences_trace (sentences : list string) (k : string) (tr : trace) :
  snd (score_sentences sentences k tr)
  = match sentences with
    | [] => tr
    | _ => tr ++ [CallScoring k (batch_input_text sentences)]
    end.
Proof.
  destruct sentences as [| s0 rest]; [reflexivity |].
  unfold score_sentences, bind, call, raise, of_result.
  destruct (claimbuster_post tr k (batch_input_text (s0 :: rest))) as [resp | e];
    simpl; [| reflexivity].
  destruct (raises_for_status resp); simpl; [reflexivity |].
  destruct (resp_json resp); reflexivity.
Qed.


Lemma silent_top_checkworthy_sentences (p : event -> bool) text api_key top_k :
  (forall k i, p (CallScoring k i) = false) ->
  silent p (fun tr => tr) (top_checkworthy_sentences text api_key top_k).
Proof.
  intros Hp. unfold top_checkworthy_sentences.
  assert (Hraise : silent p (fun tr : trace => tr)
                     (@raise trace (list scored_sentence) (SystemExit missing_key_message)))
    by apply silent_raise.
  destruct (resolve_api_key api_key) as [k |]; [| exact Hraise].
  destruct (str_truthy k); [| exact Hraise].
  apply silent_bind; [apply silent_of_result |].
  intros sentences. apply silent_bind; [| intros; apply silent_ret].
  intros tr. rewrite score_sentences_trace.
  destruct sentences; [reflexivity |].
  rewrite filter_app. simpl. rewrite Hp. apply app_nil_r.
Qed.

Lemma silent_extract_claims (p : event -> bool) paragraph :
  (forall k i, p (CallScoring k i) = false) ->
  (forall prompt, p (CallExtractionLLM prompt) = false) ->
  silent p (fun tr => tr) (extract_claims paragraph).
Proof.
  intros Hs He. unfold extract_claims, check_worth_paragraph.
  apply silent_bind.
  - apply silent_bind; [apply silent_top_checkworthy_sentences; exact Hs |].
    intros; apply silent_ret.
  - intros l. apply silent_call. apply He.
Qed.

Lemma silent_fact_check (p : event -> bool) paragraph :
  (forall prompt, p (CallAssessmentLLM prompt) = false) ->
  silent p (fun tr => tr) (fact_check paragraph).
Proof. intros H. unfold fact_check. apply silent_call. apply H. Qed.


End StageTraces.

(** ** C8: the segmenter *)

Lemma chars_str (l : list ascii) : chars (str l) = l.
Proof. apply list_ascii_of_string_of_list_ascii. Qed.

Lemma str_chars (s : string) : str (chars s) = s.
Proof. apply string_of_list_ascii_of_string. Qed.

Lemma str_app (a b : list ascii) : str (a ++ b) = (str a ++ str b)%string.
Proof.
  induction a as [| c a IH]; simpl; [reflexivity |].
  unfold str in *. simpl. rewrite IH. reflexivity.
Qed.

Lemma str_truthy_chars (s : string) :
  str_truthy s = match chars s with [] => false | _ => true end.
Proof. destruct s; reflexivity. Qed.

Lemma single_spaced_tail (c : ascii) (r : list ascii) :
  single_spaced (c :: r) = true -> single_spaced r = true.
Proof. simpl. intros H. apply andb_true_iff in H. tauto. Qed.

Lemma single_spaced_app_l (l1 l2 : list ascii) :
  single_spaced (l1 ++ l2) = true -> single_spaced l1 = true.
Proof.
  induction l1 as [| c r IH]; [reflexivity |].
  simpl. intros H. apply andb_true_iff in H. destruct H as [Hc Hr].
  rewrite (IH Hr), andb_true_r.
  destruct (is_space c); [| reflexivity].
  apply andb_true_iff in Hc. destruct Hc as [Hsp Hnext]. rewrite Hsp. simpl.
  destruct r as [| d r']; [reflexivity | exact Hnext].
Qed.

Lemma single_spaced_snoc (l : list ascii) (x : ascii) :
  single_spaced l = true -> is_space x = false -> single_spaced (l ++ [x]) = true.
Proof.
  intros Hl Hx. induction l as [| c r IH]; simpl.
  - rewrite Hx. reflexivity.
  - simpl in Hl. apply andb_true_iff in Hl. destruct Hl as [Hc Hr].
    rewrite (IH Hr), andb_true_r.
    destruct (is_space c); [| reflexivity].
    apply andb_true_iff in Hc. destruct Hc as [Hsp Hnext]. rewrite Hsp. simpl.
    destruct r as [| d r']; simpl; [rewrite Hx; reflexivity | exact Hnext].
Qed.

Lemma re_sub_ws_chars_spec (l : list ascii) :
  forall in_run,
    single_spaced (re_sub_ws_chars in_run l) = true
    /\ (in_run = true -> head_not_space (re_sub_ws_chars in_run l)).
Proof.
  induction l as [| c r IH]; intros in_run; simpl.
  - split; [reflexivity | intros _; exact I].
  - destruct (is_space c) eqn:Ec.
    + destruct in_run.
      * apply IH.
      * split; [| discriminate].
        destruct (IH true) as [Hs Hh]. specialize (Hh eq_refl).
        simpl. rewrite Hs, andb_true_r.
        destruct (re_sub_ws_chars true r) as [| d r']; [reflexivity |].
        simpl in Hh. rewrite Hh. reflexivity.
    + split.
      * simpl. rewrite Ec. apply IH.
      * intros _. exact Ec.
Qed.

Lemma lstrip_chars_suffix (l : list ascii) :
  exists pre, l = pre ++ lstrip_chars l.
Proof.
  induction l as [| c r [pre IH]]; simpl.
  - exists []. reflexivity.
  - destruct (is_space c).
    + exists (c :: pre). simpl. rewrite <- IH. reflexivity.
    + exists []. reflexivity.
Qed.

Lemma lstrip_chars_head (l : list ascii) : head_not_space (lstrip_chars l).
Proof.
  induction l as [| c r IH]; simpl; [exact I |].
  destruct (is_space c) eqn:E; [exact IH | exact E].
Qed.

Lemma lstrip_chars_single_spaced (l : list ascii) :
  single_spaced l = true -> single_spaced (lstrip_chars l) = true.
Proof.
  induction l as [| c r IH]; simpl; [reflexivity |].
  intros H. destruct (is_space c) eqn:E.
  - apply IH. apply andb_true_iff in H. tauto.
  - simpl. rewrite E. exact H.
Qed.

Lemma rstrip_chars_prefix (l : list ascii) :
  exists ws, l = rstrip_chars l ++ ws.
Proof.
  unfold rstrip_chars. destruct (lstrip_chars_suffix (rev l)) as [pre H].
  exists (rev pre). rewrite <- rev_app_distr, <- H. symmetry. apply rev_involutive.
Qed.

(** The characters of a stripped, whitespace-collapsed unit. *)
Lemma collapsed_unit_spec (u : string) :
  let l := chars (strip (re_sub_ws u)) in
  single_spaced l = true /\ head_not_space l /\ head_not_space (rev l).
Proof.
  unfold strip, re_sub_ws. rewrite !chars_str.
  set (m := re_sub_ws_chars false (chars u)).
  assert (Hm : single_spaced m = true) by apply re_sub_ws_chars_spec.
  assert (Hl : single_spaced (lstrip_chars m) = true)
    by (apply lstrip_chars_single_spaced; exact Hm).
  pose proof (lstrip_chars_head m) as Hh.
  destruct (rstrip_chars_prefix (lstrip_chars m)) as [ws Hws].
  repeat split.
  - apply (single_spaced_app_l _ ws). rewrite <- Hws. exact Hl.
  - destruct (rstrip_chars (lstrip_chars m)) as [| c r] eqn:E; [exact I |].
    rewrite Hws in Hh. exact Hh.
  - unfold rstrip_chars. rewrite rev_involutive. apply lstrip_chars_head.
Qed.

Lemma period_terminated_well_formed (p : list ascii) :
  single_spaced p = true -> head_not_space p ->
  well_formed_sentence (str (p ++ ["."%char])).
Proof.
  intros Hs Hh. unfold well_formed_sentence. repeat split.
  - destruct p; discriminate.
  - exists (str p). apply str_app.
  - unfold whitespace_collapsed. rewrite chars_str.
    rewrite single_spaced_snoc by (assumption || reflexivity).
    rewrite andb_true_r.
    destruct p as [| c r]; [reflexivity |].
    simpl in *. rewrite Hh. reflexivity.
Qed.

Lemma normalized_unit_well_formed (u : string) :
  Forall well_formed_sentence (normalized_unit u).
Proof.
  unfold normalized_unit.
  destruct (collapsed_unit_spec u) as [Hs [Hh Hlast]].
  set (c := strip (re_sub_ws u)) in *.
  destruct (rev (chars c)) as [| final before] eqn:E; [constructor |].
  assert (Hc : chars c = rev before ++ [final]).
  { rewrite <- (rev_involutive (chars c)), E. reflexivity. }
  assert (Hbefore : single_spaced (rev before) = true).
  { apply (single_spaced_app_l _ [final]). rewrite <- Hc. exact Hs. }
  assert (Hbh : head_not_space (rev before)).
  { rewrite Hc in Hh. destruct (rev before); [exact I | exact Hh]. }
  destruct (Ascii.eqb final ".") eqn:E1.
  - apply Ascii.eqb_eq in E1. subst final.
    constructor; [| constructor].
    rewrite <- (str_chars c), Hc.
    apply period_terminated_well_formed; assumption.
  - destruct (Ascii.eqb final "!" || Ascii.eqb final "?") eqn:E2;
      (constructor; [| constructor]).
    + change "."%string with (str ["."%char]). rewrite <- str_app.
      apply period_terminated_well_formed; assumption.
    + rewrite <- (str_chars c) at 1.
      change "."%string with (str ["."%char]). rewrite <- str_app.
      apply period_terminated_well_formed; assumption.
Qed.

Lemma endswith_char (s : string) (x : ascii) :
  endswith s (String x EmptyString)
  = match rev (chars s) with
    | [] => false
    | final :: _ => Ascii.eqb x final
    end.
Proof.
  unfold endswith. simpl.
  destruct (rev (chars s)); [reflexivity | apply andb_true_r].
Qed.

(** One turn of the loop appends what the specification asks for. *)
Lemma normalize_step_spec (normed : list string) (u : string) :
  normalize_step normed u = normed ++ normalized_unit u.
Proof.
  unfold normalize_step, normalized_unit.
  set (c := strip (re_sub_ws u)).
  rewrite !endswith_char, str_truthy_chars.
  destruct (rev (chars c)) as [| final before] eqn:E.
  - assert (Hc : chars c = []).
    { rewrite <- (rev_involutive (chars c)), E. reflexivity. }
    rewrite Hc. simpl. symmetry. apply app_nil_r.
  - assert (Hc : chars c = rev before ++ [final]).
    { rewrite <- (rev_involutive (chars c)), E. reflexivity. }
    assert (Hne : match chars c with [] => false | _ => true end = true).
    { rewrite Hc. destruct (rev before); reflexivity. }
    rewrite Hne.
    rewrite (Ascii.eqb_sym "."%char final), (Ascii.eqb_sym "!"%char final),
      (Ascii.eqb_sym "?"%char final).
    destruct (Ascii.eqb final "."); cbn [negb]; [reflexivity |].
    destruct (Ascii.eqb final "!" || Ascii.eqb final "?"); [| reflexivity].
    unfold drop_last. rewrite Hc, removelast_last. reflexivity.
Qed.

Lemma normalize_sentences_spec (units : list string) :
  normalize_sentences units = flat_map normalized_unit units.
Proof.
  unfold normalize_sentences.
  assert (H : forall acc, fold_left normalize_step units acc
                          = acc ++ flat_map normalized_unit units).
  { induction units as [| u r IH]; intros acc; simpl.
    - symmetry. apply app_nil_r.
    - rewrite IH, normalize_step_spec, <- app_assoc. reflexivity. }
  apply (H []).
Qed.

(** The fallback cuts the text into pieces in the order of the text. *)
Lemma re_split_chars_concat (l : list ascii) : List.concat (re_split_chars l) = l.
Proof.
  induction l as [| c r IH]; [reflexivity |].
  simpl. destruct (is_terminator c); simpl.
  - rewrite IH. reflexivity.
  - destruct (re_split_chars r) as [| first rest]; simpl in *.
    + rewrite <- IH. reflexivity.
    + rewrite <- IH. reflexivity.
Qed.


(** ** C9: the aggregator *)

Lemma review_record_spec (claim review : json) (results : list FactCheckRecord) :
  well_formed_review review = true ->
  review_record (field_or claim "text" "No claim text")
                (field_or claim "claimDate" "Unknown date") results review
  = Ok (results ++ [record_of claim review]).
Proof.
  intros Hwf. destruct review as [| | | | | |items]; try discriminate.
  unfold review_record, record_of, publisher_name, field_or. simpl in *.
  destruct (dict_lookup items "publisher") as [[| | | | | |p] |];
    try discriminate; reflexivity.
Qed.

Lemma fold_review_record_spec (claim : json) (reviews : list json) :
  forall results,
    forallb well_formed_review reviews = true ->
    fold_result (review_record (field_or claim "text" "No claim text")
                               (field_or claim "claimDate" "Unknown date"))
                reviews results
    = Ok (results ++ map (record_of claim) reviews).
Proof.
  induction reviews as [| r rest IH]; intros results Hwf; simpl.
  - rewrite app_nil_r. reflexivity.
  - simpl in Hwf. apply andb_true_iff in Hwf. destruct Hwf as [Hr Hrest].
    rewrite (review_record_spec claim r results Hr). simpl.
    rewrite (IH _ Hrest), <- app_assoc. reflexivity.
Qed.

Lemma claim_records_spec (claim : json) (results : list FactCheckRecord) :
  well_formed_claim claim = true ->
  claim_records results claim
  = Ok (results ++ map (record_of claim) (reviews_of claim)).
Proof.
  intros Hwf. destruct claim as [| | | | | |items]; try discriminate.
  unfold claim_records. simpl json_get. cbn [rbind].
  change (match dict_lookup items "text" with
          | Some v => v | None => JStr "No claim text" end)
    with (field_or (JDict items) "text" "No claim text").
  change (match dict_lookup items "claimDate" with
          | Some v => v | None => JStr "Unknown date" end)
    with (field_or (JDict items) "claimDate" "Unknown date").
  unfold reviews_of. simpl in Hwf.
  destruct (dict_lookup items "claimReview") as [[| | | | |rs|] |];
    try discriminate; simpl.
  - exact (fold_review_record_spec (JDict items) rs results Hwf).
  - rewrite app_nil_r. reflexivity.
Qed.

Lemma fold_claim_records_spec (claims : list json) :
  forall results,
    forallb well_formed_claim claims = true ->
    fold_result claim_records claims results
    = Ok (results ++ flat_map (fun claim => map (record_of claim) (reviews_of claim)) claims).
Proof.
  induction claims as [| c rest IH]; intros results Hwf; simpl.
  - rewrite app_nil_r. reflexivity.
  - simpl in Hwf. apply andb_true_iff in Hwf. destruct Hwf as [Hc Hrest].
    rewrite (claim_records_spec c results Hc). simpl.
    rewrite (IH _ Hrest), <- app_assoc. reflexivity.
Qed.

Lemma flatten_response_spec (data : json) :
  well_formed_response data = true ->
  flatten_response data
  = Ok (flat_map (fun claim => map (record_of claim) (reviews_of claim)) (claims_of data)).
Proof.
  intros Hwf. destruct data as [| | | | | |items]; try discriminate.
  unfold flatten_response, claims_of. simpl in *.
  destruct (dict_lookup items "claims") as [[| | | | |cs|] |];
    try discriminate; simpl.
  - apply (fold_claim_records_spec cs []). exact Hwf.
  - reflexivity.
Qed.

Lemma flat_map_records_length (claims : list json) :
  List.length (flat_map (fun claim => map (record_of claim) (reviews_of claim)) claims)
  = list_sum (map (fun claim => List.length (reviews_of claim)) claims).
Proof.
  induction claims as [| c rest IH]; simpl; [reflexivity |].
  rewrite length_app, length_map, IH. reflexivity.
Qed.

(** C9: on a successful response with the collaborator's nested
    claim/review structure, [search_fact_checks] returns, in order, exactly
    one record per review object, each field being the value the response
    gives or else its sentinel; without claims the result is the empty
    list, and nothing is raised. *)
Theorem search_fact_checks_flattens :
  forall (C : Collaborators) (query : pyval) (language : string) (max_results : Z)
         (tr : trace) (resp : response) (data : json),
    factcheck_get tr query language max_results = Ok resp ->
    status_code resp = 200 ->
    resp_json resp = Ok data ->
    well_formed_response data = true ->
    let records :=
      flat_map (fun claim => map (record_of claim) (reviews_of claim)) (claims_of data) in
    search_fact_checks query language max_results tr
    = (Ok records, tr ++ [CallSearch query language max_results])
    /\ List.length records
       = list_sum (map (fun claim => List.length (reviews_of claim)) (claims_of data))
    /\ (claims_of data = [] -> records = []).
Proof.
  intros C query language max_results tr resp data Hget Hstatus Hjson Hwf records.
  split; [| split].
  - unfold search_fact_checks, bind, call, raise, of_result.
    rewrite Hget, Hstatus, Hjson. simpl.
    rewrite (flatten_response_spec data Hwf). reflexivity.
  - apply flat_map_records_length.
  - intros H. unfold records. rewrite H. reflexivity.
Qed.

Lemma search_fact_checks_flattens_witness :
  @search_fact_checks Sample.good (PyStr "a") "en" 5 []
  = (Ok [record_of (JDict [("text", JStr "a"); ("claimReview", JList [Sample.review_a])])
                   Sample.review_a],
     [CallSearch (PyStr "a") "en" 5]).
Proof.
  exact (proj1 (@search_fact_checks_flattens Sample.good (PyStr "a") "en" 5 []
                  (mkResponse 200 ""
                     (Ok (JDict [("claims",
                                  JList [JDict [("text", JStr "a");
                                                ("claimReview", JList [Sample.review_a])]])])))
                  (JDict [("claims",
                           JList [JDict [("text", JStr "a");
                                         ("claimReview", JList [Sample.review_a])]])])
                  eq_refl eq_refl eq_refl eq_refl)).
Defined.

(** ** C4: the failures of the scorer *)

(** C4, as stated, fails: a body that is a list of things that are not
    sentence and score pairs is accepted and yields no sentence, and a
    status that is neither 2xx nor 4xx/5xx is accepted as well. *)
Lemma scorer_accepts_unrecognized_responses :
  ~ (forall (C : Collaborators) (text : string) (tr : trace) (k : string)
            (sentences : list string) (resp : response) (data : json),
        resolve_api_key None = Some k -> str_truthy k = true ->
        split_into_sentences text = Ok sentences -> sentences <> [] ->
        claimbuster_post tr k (batch_input_text sentences) = Ok resp ->
        resp_json resp = Ok data -> recognized_shape data = false ->
        is_ok (fst (top_checkworthy_sentences text None 3 tr)) = false)
  /\ ~ (forall (C : Collaborators) (text : string) (tr : trace) (k : string)
               (sentences : list string) (resp : response),
        resolve_api_key None = Some k -> str_truthy k = true ->
        split_into_sentences text = Ok sentences -> sentences <> [] ->
        claimbuster_post tr k (batch_input_text sentences) = Ok resp ->
        success_status resp = false ->
        is_ok (fst (top_checkworthy_sentences text None 3 tr)) = false).
Proof.
  split; intros H.
  - specialize (H Sample.scoring_odd_list Sample.paragraph [] "k"
                  ["Coffee dehydrates you."; "The WHO was founded in 1948."]
                  (mkResponse 200 "" (Ok (JList [JInt 1; JStr "x"])))
                  (JList [JInt 1; JStr "x"])
                  eq_refl eq_refl eq_refl).
    assert (Hne : ["Coffee dehydrates you."; "The WHO was founded in 1948."] <> [])
      by discriminate.
    specialize (H Hne eq_refl eq_refl eq_refl). vm_compute in H. discriminate.
  - specialize (H Sample.scoring_redirect Sample.paragraph [] "k"
                  ["Coffee dehydrates you."; "The WHO was founded in 1948."]
                  (mkResponse 301 "" (Ok (JList [])))
                  eq_refl eq_refl eq_refl).
    assert (Hne : ["Coffee dehydrates you."; "The WHO was founded in 1948."] <> [])
      by discriminate.
    specialize (H Hne eq_refl eq_refl). vm_compute in H. discriminate.
Qed.

(** C4, amended: every failure of the scorer is a [SystemExit].  Without
    a key (neither passed nor in the environment) it exits before anything
    else happens.  With a key and at least one sentence, it exits when the
    scoring collaborator answers with a 4xx or 5xx status, and when the
    decoded body is neither a list nor an object. *)
Theorem top_checkworthy_sentences_failures :
  forall (C : Collaborators) (text : string) (api_key : option string)
         (top_k : Z) (tr : trace),
    ((resolve_api_key api_key = None \/ resolve_api_key api_key = Some "") ->
     top_checkworthy_sentences text api_key top_k tr
     = (Raise (SystemExit missing_key_message), tr))
    /\
    (forall (k : string) (sentences : list string) (resp : response),
        resolve_api_key api_key = Some k -> str_truthy k = true ->
        split_into_sentences text = Ok sentences -> sentences <> [] ->
        claimbuster_post tr k (batch_input_text sentences) = Ok resp ->
        (raises_for_status resp = true ->
         top_checkworthy_sentences text api_key top_k tr
         = (Raise (SystemExit ("ClaimBuster API error: " ++ http_error_str resp
                               ++ " | Body: " ++ str_prefix 500 (resp_text resp))%string),
            tr ++ [CallScoring k (batch_input_text sentences)]))
        /\
        (forall data : json,
            raises_for_status resp = false ->
            resp_json resp = Ok data ->
            match data with JList _ | JDict _ => False | _ => True end ->
            top_checkworthy_sentences text api_key top_k tr
            = (Raise (SystemExit ("Unexpected API response format: "
                                  ++ str_prefix 500 (json_dumps data))%string),
               tr ++ [CallScoring k (batch_input_text sentences)]))).
Proof.
  intros C text api_key top_k tr. split.
  - intros [H | H]; unfold top_checkworthy_sentences; rewrite H; reflexivity.
  - intros k sentences resp Hk Hkt Hs Hne Hpost.
    unfold top_checkworthy_sentences. rewrite Hk, Hkt.
    unfold bind, of_result. rewrite Hs.
    destruct sentences as [| s0 rest]; [contradiction |].
    unfold score_sentences, bind, call, raise, of_result. rewrite Hpost.
    split.
    + intros Hst. rewrite Hst. reflexivity.
    + intros data Hst Hjson Hshape. rewrite Hst, Hjson.
      destruct data; try contradiction; reflexivity.
Qed.

Lemma top_checkworthy_sentences_failures_witness :
  @top_checkworthy_sentences Sample.no_key Sample.paragraph None 3 []
  = (Raise (SystemExit missing_key_message), [])
  /\ @top_checkworthy_sentences Sample.scoring_down Sample.paragraph None 3 []
     = (Raise (SystemExit "ClaimBuster API error: 500 Error | Body: failure"),
        [CallScoring "k" "Coffee dehydrates you. The WHO was founded in 1948."])
  /\ @top_checkworthy_sentences Sample.scoring_scalar Sample.paragraph None 3 []
     = (Raise (SystemExit "Unexpected API response format: 7"),
        [CallScoring "k" "Coffee dehydrates you. The WHO was founded in 1948."]).
Proof.
  split; [| split].
  - apply (proj1 (@top_checkworthy_sentences_failures
                    Sample.no_key Sample.paragraph None 3 [])).
    left. reflexivity.
  - refine (proj1 (proj2 (@top_checkworthy_sentences_failures
                            Sample.scoring_down Sample.paragraph None 3 [])
                         "k" ["Coffee dehydrates you."; "The WHO was founded in 1948."]
                         (mkResponse 500 "failure"
                            (Raise (PyExc "JSONDecodeError" "Expecting value")))
                         eq_refl eq_refl eq_refl _ eq_refl) eq_refl).
    discriminate.
  - refine (proj2 (proj2 (@top_checkworthy_sentences_failures
                            Sample.scoring_scalar Sample.paragraph None 3 [])
                         "k" ["Coffee dehydrates you."; "The WHO was founded in 1948."]
                         (mkResponse 200 "" (Ok (JInt 7)))
                         eq_refl eq_refl eq_refl _ eq_refl) (JInt 7) eq_refl eq_refl I).
    discriminate.
Defined.

(** ** C3: the extractor on an empty ranking *)

(** C3, as stated, fails: with no ranked sentence at all the extraction
    model is still called, on the prompt built from the empty list. *)
Lemma extract_claims_calls_model_on_empty_ranking :
  ~ (forall (C : Collaborators) (paragraph : string) (tr tr1 : trace),
        check_worth_paragraph paragraph tr = (Ok [], tr1) ->
        filter is_extraction_call (snd (extract_claims paragraph tr))
        = filter is_extraction_call tr).
Proof.
  intros H. specialize (H Sample.good "" [] [] eq_refl).
  vm_compute in H. discriminate.
Qed.

(** C3, amended: when no sentence is ranked, [extract_claims] builds the
    prompt from the empty list, calls the text-generation collaborator
    exactly once on it and returns its answer as it is. *)
Theorem extract_claims_on_empty_ranking :
  forall (C : Collaborators) (paragraph : string) (tr tr1 : trace),
    check_worth_paragraph paragraph tr = (Ok [], tr1) ->
    extract_claims paragraph tr
    = (generate_response_40 tr1 (build_prompt_to_extract_Claims []),
       tr1 ++ [CallExtractionLLM (build_prompt_to_extract_Claims [])]).
Proof.
  intros C paragraph tr tr1 H. unfold extract_claims, bind. rewrite H. reflexivity.
Qed.

Lemma extract_claims_on_empty_ranking_witness :
  @extract_claims Sample.good "" []
  = (Ok "['a', 'b']", [CallExtractionLLM "Extract the claims: "]).
Proof.
  exact (@extract_claims_on_empty_ranking Sample.good "" [] [] eq_refl).
Defined.

(** ** The route [index] *)

Section IndexRun.
Context {C : Collaborators}.
Variables (req : request) (raw : string) (tr0 : trace).
Hypothesis Hmethod : method req = "POST".
Hypothesis Hform : form_user_input req = Some raw.
Hypothesis Hraw : str_truthy raw = true.

(** A POST with some input runs the [try] block; an [Exception] is
    flashed and the page rendered from the locals as they are. *)
Lemma index_post :
  index req tr0
  = match index_try raw (set_raw_input raw initial_locals, tr0) with
    | (Ok _, (L, tr')) => (Ok L, tr')
    | (Raise e, (L, tr')) =>
        if is_Exception e
        then (Ok L, tr' ++ [Flash (str_of_exn e) "error"])
        else (Raise e, tr')
    end.
Proof.
  unfold index, index_body. rewrite Hmethod, Hform, Hraw.
  change (String.eqb "POST" "POST") with true. cbv beta iota.
  unfold bind, assign, try_except. cbn [fst snd].
  destruct (index_try raw (set_raw_input raw initial_locals, tr0))
    as [[u | e] [L tr']]; [reflexivity |].
  destruct (is_Exception e); reflexivity.
Qed.

Variables (txt : string) (w : list string) (fcText : string) (fc : json)
          (tr2 : trace) (cw : list scored_sentence) (tr3 : trace).
Hypothesis Hproc : process_input tr0 raw = Ok (txt, w).
Hypothesis Hassess : fact_check txt (tr0 ++ [CallProcessInput raw]) = (Ok fcText, tr2).
Hypothesis Hloads : json_loads fcText = Ok fc.
Hypothesis Hscore : top_checkworthy_sentences txt None 3 tr2 = (Ok cw, tr3).

(** The locals once the ranked sentences are assigned. *)
Let scored_page : page :=
  {| text := Some txt; warnings := []; raw_input := raw; factcheck := Some fc;
     fact_checks := None; claim_worthy := Some cw |}.

(** What [index] does after that. *)
Let continuation : M (page * trace) unit :=
  (claims <- lift (extract_claims txt) ;;
   claim_list <- lift (of_result (literal_eval claims)) ;;
   lift (emit (PrintClaimList claim_list)) ;;;
   items <- lift (of_result (py_iter claim_list)) ;;
   index_search_loop items ;;;
   assign (set_warnings w))%py.

Lemma index_try_scored :
  index_try raw (set_raw_input raw initial_locals, tr0) = continuation (scored_page, tr3).
Proof.
  unfold index_try.
  unfold bind at 1. unfold lift at 1. unfold call at 1. cbn [fst snd].
  rewrite Hproc. cbn [fst snd].
  unfold bind at 1. unfold assign at 1. cbn [fst snd].
  unfold bind at 1. unfold lift at 1. cbn [fst snd]. rewrite Hassess.
  unfold bind at 1. unfold lift at 1. unfold of_result at 1. cbn [fst snd].
  rewrite Hloads.
  unfold bind at 1. unfold assign at 1. cbn [fst snd].
  unfold bind at 1. unfold lift at 1. cbn [fst snd]. rewrite Hscore.
  unfold bind at 1. unfold assign at 1. cbn [fst snd].
  reflexivity.
Qed.

(** The loop only ever assigns [fact_checks], and when it completes it
    has searched every claim once, in order. *)
Lemma index_search_loop_ok (items : list pyval) :
  forall (L : page) (tr : trace) (L' : page) (tr' : trace),
    index_search_loop items (L, tr) = (Ok tt, (L', tr')) ->
    text L' = text L /\ warnings L' = warnings L /\ raw_input L' = raw_input L
    /\ factcheck L' = factcheck L /\ claim_worthy L' = claim_worthy L
    /\ search_calls tr' = search_calls tr ++ map search_event items
    /\ (items = [] -> fact_checks L' = fact_checks L).
Proof.
  induction items as [| x xs IH]; intros L tr L' tr' H.
  - inversion H; subst. unfold search_calls. rewrite app_nil_r. repeat split.
  - unfold index_search_loop in H. simpl in H. unfold bind at 1 in H.
    unfold bind at 1 in H. unfold lift at 1 in H. cbn [fst snd] in H.
    pose proof (search_fact_checks_trace x "en" 5 tr) as Htr.
    destruct (search_fact_checks x "en" 5 tr) as [[results | e] tr1];
      [| discriminate H].
    simpl in Htr. subst tr1.
    unfold bind at 1 in H. unfold assign at 1 in H. cbn [fst snd] in H.
    unfold lift at 1 in H. unfold emit at 1 in H. cbn [fst snd] in H.
    apply IH in H. destruct H as (H1 & H2 & H3 & H4 & H5 & H6 & _).
    repeat split; try assumption.
    + rewrite H6. unfold search_calls. rewrite !filter_app. simpl.
      rewrite app_nil_r, <- app_assoc. reflexivity.
    + discriminate.
Qed.

(** When the loop completes, [fact_checks] holds what the search for the
    last claim returned, and nothing of the claims before it. *)
Lemma index_search_loop_keeps_last (items : list pyval) (last_claim : pyval) :
  forall (L : page) (tr : trace) (L' : page) (tr' : trace),
    index_search_loop (items ++ [last_claim]) (L, tr) = (Ok tt, (L', tr')) ->
    exists tr1 results,
      fst (search_fact_checks last_claim "en" 5 tr1) = Ok results
      /\ fact_checks L' = Some results.
Proof.
  intros L tr L' tr' H. unfold index_search_loop in H.
  rewrite for_each_app in H.
  match type of H with
  | context [for_each items ?body (L, tr)] =>
      destruct (for_each items body (L, tr)) as [[u | e] [L1 tr1]]
  end; [| discriminate H].
  simpl in H. unfold bind at 1 in H. unfold bind at 1 in H.
  unfold lift at 1 in H. cbn [fst snd] in H.
  exists tr1.
  destruct (search_fact_checks last_claim "en" 5 tr1) as [[results | e] tr_after];
    [| discriminate H].
  exists results. split; [reflexivity |].
  unfold bind, assign, lift, emit, ret in H. cbn [fst snd] in H.
  inversion H; subst. reflexivity.
Qed.

Variables (claims : string) (tr4 : trace).
Hypothesis Hextract : extract_claims txt tr3 = (Ok claims, tr4).

(** Nothing is searched before the claims are parsed. *)
Lemma no_search_before_parsing : search_calls tr4 = search_calls tr0.
Proof.
  unfold search_calls.
  pose proof (silent_extract_claims is_search_call txt
                (fun _ _ => eq_refl) (fun _ => eq_refl) tr3) as H4.
  rewrite Hextract in H4. simpl in H4. rewrite H4.
  pose proof (silent_top_checkworthy_sentences is_search_call txt None 3
                (fun _ _ => eq_refl) tr2) as H3.
  rewrite Hscore in H3. simpl in H3. rewrite H3.
  pose proof (silent_fact_check is_search_call txt (fun _ => eq_refl)
                (tr0 ++ [CallProcessInput raw])) as H2.
  rewrite Hassess in H2. simpl in H2. rewrite H2.
  rewrite filter_app. simpl. apply app_nil_r.
Qed.

(** C5, amended: when [ast.literal_eval] raises on the text of the
    extraction collaborator (it raises [ValueError] or [SyntaxError] when
    the text is not a Python literal; there is no [ParseError]), the
    error is flashed to the caller, no claim is searched, [fact_checks]
    stays [None], and the page is rendered with the text, the assessment
    and the ranked sentences; the claim list is either the whole parsed
    value or absent. *)
Theorem index_parse_failure_is_flashed (e : exn) :
  literal_eval claims = Raise e -> is_Exception e = true ->
  index req tr0 = (Ok scored_page, tr4 ++ [Flash (str_of_exn e) "error"]).
Proof.
  intros Hparse He. rewrite index_post, index_try_scored. unfold continuation.
  unfold bind at 1. unfold lift at 1. cbn [fst snd]. rewrite Hextract.
  unfold bind at 1. unfold lift at 1. unfold of_result at 1. cbn [fst snd].
  rewrite Hparse, He. reflexivity.
Qed.

Variables (claim_list : pyval) (pre : list pyval) (c : pyval) (post : list pyval).
Hypothesis Hparse : literal_eval claims = Ok claim_list.
Hypothesis Hiter : py_iter claim_list = Ok (pre ++ c :: post).

(** C2, amended: when the search for one claim fails, after the
    claims before it were searched, the single handler of the route
    flashes the error and the loop is over: the claims after the failing
    one are never searched, [fact_checks] keeps what the claims before
    left there ([None] when the first claim fails), no warning is
    recorded, and the page is still rendered with the text, the
    assessment and the ranked sentences. *)
Theorem index_search_failure_aborts_loop (L1 : page) (tr5 : trace) (e : exn) :
  index_search_loop pre (scored_page, tr4 ++ [PrintClaimList claim_list])
  = (Ok tt, (L1, tr5)) ->
  fst (search_fact_checks c "en" 5 tr5) = Raise e ->
  is_Exception e = true ->
  index req tr0 = (Ok L1, tr5 ++ [search_event c; Flash (str_of_exn e) "error"])
  /\ text L1 = Some txt /\ warnings L1 = [] /\ raw_input L1 = raw
  /\ factcheck L1 = Some fc /\ claim_worthy L1 = Some cw
  /\ (pre = [] -> fact_checks L1 = None)
  /\ search_calls (tr5 ++ [search_event c; Flash (str_of_exn e) "error"])
     = search_calls tr0 ++ map search_event (pre ++ [c]).
Proof.
  intros Hpre Hfail He.
  pose proof (index_search_loop_ok pre _ _ Hpre) as (H1 & H2 & H3 & H4 & H5 & H6 & H7).
  split; [| repeat split; try assumption].
  - rewrite index_post, index_try_scored. unfold continuation.
    unfold bind at 1. unfold lift at 1. cbn [fst snd]. rewrite Hextract.
    unfold bind at 1. unfold lift at 1. unfold of_result at 1. cbn [fst snd].
    rewrite Hparse.
    unfold bind at 1. unfold lift at 1. unfold emit at 1. cbn [fst snd].
    unfold bind at 1. unfold lift at 1. unfold of_result at 1. cbn [fst snd].
    rewrite Hiter.
    unfold bind at 1. unfold index_search_loop. rewrite for_each_app.
    match goal with
    | |- context [for_each pre ?body ?s] =>
        replace (for_each pre body s) with (Ok tt, (L1, tr5)) by (symmetry; exact Hpre)
    end.
    simpl for_each. unfold bind at 1. unfold bind at 1.
    unfold lift at 1. cbn [fst snd].
    pose proof (search_fact_checks_trace c "en" 5 tr5) as Htr.
    destruct (search_fact_checks c "en" 5 tr5) as [[results | e'] tr6];
      simpl in Hfail; [discriminate Hfail |].
    inversion Hfail; subst e'. simpl in Htr. subst tr6.
    rewrite He. rewrite <- app_assoc. reflexivity.
  - unfold search_calls in *. rewrite filter_app, H6. simpl.
    rewrite filter_app. simpl. rewrite app_nil_r.
    fold (search_calls tr4). rewrite no_search_before_parsing.
    rewrite map_app, app_assoc. reflexivity.
Qed.

Variable sentences : list string.
Hypothesis Hsentences : split_into_sentences txt = Ok sentences.
Hypothesis Hnonempty : sentences <> [].




End IndexRun.

(** ** The route on the sample collaborators *)

(** C1: the report should map every claim to its own records, but the
    loop of [index] assigns the same variable at every turn.  With the
    claims ['a'] and ['b'], the search for ['a'] finds one record and the
    search for ['b'] none: the page gets the empty list, and the record
    found for ['a'] is gone; there is no mapping from claims to records. *)
Theorem index_keeps_only_last_claim_results :
  In (PrintClaimList (PyList [PyStr "a"; PyStr "b"]))
     (snd (@index Sample.good Sample.post []))
  /\ In (PrintFactChecks
           [record_of (JDict [("text", JStr "a");
                              ("claimReview", JList [Sample.review_a])])
                      Sample.review_a])
        (snd (@index Sample.good Sample.post []))
  /\ exists pg, fst (@index Sample.good Sample.post []) = Ok pg
                /\ fact_checks pg = Some [].
Proof.
  split; [| split].
  - vm_compute. repeat (first [left; reflexivity | right]).
  - vm_compute. repeat (first [left; reflexivity | right]).
  - eexists. split; vm_compute; reflexivity.
Qed.

(** C2, as stated, fails: with the claims ['a'] and ['b'], when the
    search for ['a'] fails the claim ['b'] is never searched. *)
Lemma index_search_failure_skips_remaining_claims :
  ~ (forall (C : Collaborators) (req : request) (tr0 : trace)
            (claim_list : pyval) (items : list pyval),
        In (PrintClaimList claim_list) (snd (index req tr0)) ->
        py_iter claim_list = Ok items ->
        (2 <= List.length items)%nat ->
        is_ok (fst (index req tr0)) = true
        /\ Forall (fun q => In (search_event q) (snd (index req tr0))) items).
Proof.
  intros H.
  specialize (H Sample.search_down Sample.post []
                (PyList [PyStr "a"; PyStr "b"]) [PyStr "a"; PyStr "b"]).
  destruct H as [_ H].
  - vm_compute. repeat (first [left; reflexivity | right]).
  - reflexivity.
  - simpl. lia.
  - inversion H as [| x l Ha Hb]; subst.
    inversion Hb as [| y l' Hin _]; subst.
    vm_compute in Hin.
    repeat (destruct Hin as [Hin | Hin]; [discriminate Hin |]).
    exact Hin.
Qed.

Lemma index_search_failure_aborts_loop_witness :
  @index Sample.search_down Sample.post []
  = (Ok {| text := Some Sample.paragraph; warnings := [];
           raw_input := Sample.paragraph; factcheck := Some (JDict []);
           fact_checks := None;
           claim_worthy := Some [(JStr "The WHO was founded in 1948.", FFin (9 # 10));
                                 (JStr "Coffee dehydrates you.", FFin (7 # 10))] |},
     [CallProcessInput Sample.paragraph;
      CallAssessmentLLM ("Fact-check: " ++ Sample.paragraph);
      CallScoring "k" Sample.paragraph;
      CallScoring "k" Sample.paragraph;
      CallExtractionLLM
        "Extract the claims: The WHO was founded in 1948. Coffee dehydrates you.";
      PrintClaimList (PyList [PyStr "a"; PyStr "b"]);
      search_event (PyStr "a");
      Flash "Error: 500 - failure" "error"]).
Proof.
  exact (proj1 (@index_search_failure_aborts_loop
                  Sample.search_down Sample.post Sample.paragraph []
                  eq_refl eq_refl eq_refl
                  Sample.paragraph [] "{}" (JDict [])
                  [CallProcessInput Sample.paragraph;
                   CallAssessmentLLM ("Fact-check: " ++ Sample.paragraph)]
                  [(JStr "The WHO was founded in 1948.", FFin (9 # 10));
                   (JStr "Coffee dehydrates you.", FFin (7 # 10))]
                  [CallProcessInput Sample.paragraph;
                   CallAssessmentLLM ("Fact-check: " ++ Sample.paragraph);
                   CallScoring "k" Sample.paragraph]
                  eq_refl eq_refl eq_refl eq_refl
                  "['a', 'b']"
                  [CallProcessInput Sample.paragraph;
                   CallAssessmentLLM ("Fact-check: " ++ Sample.paragraph);
                   CallScoring "k" Sample.paragraph;
                   CallScoring "k" Sample.paragraph;
                   CallExtractionLLM
                     "Extract the claims: The WHO was founded in 1948. Coffee dehydrates you."]
                  eq_refl
                  (PyList [PyStr "a"; PyStr "b"]) [] (PyStr "a") [PyStr "b"]
                  eq_refl eq_refl
                  _ _ (PyExc "Exception" "Error: 500 - failure")
                  eq_refl eq_refl eq_refl)).
Defined.

(** C5, as stated, fails: a text that is a string literal is not a list
    of strings, yet nothing is raised or flashed; its characters are
    searched as claims. *)
Lemma index_accepts_string_literal :
  ~ (forall (C : Collaborators) (req : request) (raw : string) (tr0 : trace)
            (txt : string) (w : list string) (fcText : string) (fc : json)
            (tr2 : trace) (cw : list scored_sentence) (tr3 : trace)
            (claims : string) (tr4 : trace),
        method req = "POST" -> form_user_input req = Some raw ->
        str_truthy raw = true ->
        process_input tr0 raw = Ok (txt, w) ->
        fact_check txt (tr0 ++ [CallProcessInput raw]) = (Ok fcText, tr2) ->
        json_loads fcText = Ok fc ->
        top_checkworthy_sentences txt None 3 tr2 = (Ok cw, tr3) ->
        extract_claims txt tr3 = (Ok claims, tr4) ->
        match literal_eval claims with
        | Ok v => is_list_of_strings v = false
        | Raise _ => True
        end ->
        is_ok (fst (index req tr0)) = false
        \/ existsb is_flash (snd (index req tr0)) = true).
Proof.
  intros H.
  specialize (H Sample.string_answer Sample.post Sample.paragraph []
                Sample.paragraph [] "{}" (JDict [])
                [CallProcessInput Sample.paragraph;
                 CallAssessmentLLM ("Fact-check: " ++ Sample.paragraph)]
                [(JStr "The WHO was founded in 1948.", FFin (9 # 10));
                 (JStr "Coffee dehydrates you.", FFin (7 # 10))]
                [CallProcessInput Sample.paragraph;
                 CallAssessmentLLM ("Fact-check: " ++ Sample.paragraph);
                 CallScoring "k" Sample.paragraph]
                "'ab'"
                [CallProcessInput Sample.paragraph;
                 CallAssessmentLLM ("Fact-check: " ++ Sample.paragraph);
                 CallScoring "k" Sample.paragraph;
                 CallScoring "k" Sample.paragraph;
                 CallExtractionLLM
                   "Extract the claims: The WHO was founded in 1948. Coffee dehydrates you."]
                eq_refl eq_refl eq_refl eq_refl eq_refl eq_refl eq_refl eq_refl eq_refl).
  vm_compute in H. destruct H; discriminate.
Qed.

Lemma index_parse_failure_is_flashed_witness :
  @index Sample.prose_answer Sample.post []
  = (Ok {| text := Some Sample.paragraph; warnings := [];
           raw_input := Sample.paragraph; factcheck := Some (JDict []);
           fact_checks := None;
           claim_worthy := Some [(JStr "The WHO was founded in 1948.", FFin (9 # 10));
                                 (JStr "Coffee dehydrates you.", FFin (7 # 10))] |},
     [CallProcessInput Sample.paragraph;
      CallAssessmentLLM ("Fact-check: " ++ Sample.paragraph);
      CallScoring "k" Sample.paragraph;
      CallScoring "k" Sample.paragraph;
      CallExtractionLLM
        "Extract the claims: The WHO was founded in 1948. Coffee dehydrates you.";
      Flash "invalid syntax (<unknown>, line 1)" "error"]).
Proof.
  exact (@index_parse_failure_is_flashed
           Sample.prose_answer Sample.post Sample.paragraph []
           eq_refl eq_refl eq_refl
           Sample.paragraph [] "{}" (JDict [])
           [CallProcessInput Sample.paragraph;
            CallAssessmentLLM ("Fact-check: " ++ Sample.paragraph)]
           [(JStr "The WHO was founded in 1948.", FFin (9 # 10));
            (JStr "Coffee dehydrates you.", FFin (7 # 10))]
           [CallProcessInput Sample.paragraph;
            CallAssessmentLLM ("Fact-check: " ++ Sample.paragraph);
            CallScoring "k" Sample.paragraph]
           eq_refl eq_refl eq_refl eq_refl
           "The claims are a and b."
           [CallProcessInput Sample.paragraph;
            CallAssessmentLLM ("Fact-check: " ++ Sample.paragraph);
            CallScoring "k" Sample.paragraph;
            CallScoring "k" Sample.paragraph;
            CallExtractionLLM
              "Extract the claims: The WHO was founded in 1948. Coffee dehydrates you."]
           eq_refl
           (PyExc "SyntaxError" "invalid syntax (<unknown>, line 1)")
           eq_refl eq_refl).
Defined.


(* ================================================================== *)
(** * Further properties                                                *)
(* ================================================================== *)

(** ** The ranking step *)

Section SortMore.
Variable T : Type.
Variable key : T -> pyfloat.

Lemma insert_by_key_perm (x : T) (l : list T) :
  Permutation (insert_by_key key x l) (x :: l).
Proof.
  induction l as [| y r IH]; simpl; [apply Permutation_refl |].
  destruct (float_lt (key y) (key x)); [| apply Permutation_refl].
  eapply Permutation_trans; [apply perm_skip, IH | apply perm_swap].
Qed.

Lemma stable_sort_perm (l : list T) : Permutation (stable_sort key l) l.
Proof.
  induction l as [| x r IH]; simpl; [apply perm_nil |].
  eapply Permutation_trans; [apply insert_by_key_perm | apply perm_skip, IH].
Qed.

Lemma list_sort_perm (reverse : bool) (l : list T) :
  Permutation (list_sort key reverse l) l.
Proof.
  destruct reverse; simpl; [| apply stable_sort_perm].
  eapply Permutation_trans; [apply Permutation_sym, Permutation_rev |].
  eapply Permutation_trans; [apply stable_sort_perm |].
  apply Permutation_sym, Permutation_rev.
Qed.

(** Sorting a list that is already in ascending order changes nothing. *)
Lemma stable_sort_sorted_id (l : list T) :
  StronglySorted (fun a b => float_ge (key b) (key a) = true) l ->
  stable_sort key l = l.
Proof.
  induction 1 as [| x r Hs IH Hx]; simpl; [reflexivity |].
  rewrite IH. destruct r as [| y r']; [reflexivity |].
  simpl. inversion Hx; subst.
  rewrite (float_ge_lt _ _ H1). reflexivity.
Qed.

Lemma list_sort_reverse_sorted_id (l : list T) :
  StronglySorted (fun a b => float_ge (key a) (key b) = true) l ->
  list_sort key true l = l.
Proof.
  intros H. simpl. rewrite stable_sort_sorted_id; [apply rev_involutive |].
  apply (StronglySorted_rev (R := fun a b => float_ge (key a) (key b) = true)).
  exact H.
Qed.

End SortMore.

Lemma StronglySorted_firstn_skipn {A} (R : A -> A -> Prop) (n : nat) (l : list A) :
  StronglySorted R l ->
  forall x y, In x (firstn n l) -> In y (skipn n l) -> R x y.
Proof.
  revert l. induction n as [| n IH]; intros l Hs x y Hx Hy; simpl in *.
  - contradiction.
  - destruct l as [| a l]; [contradiction |].
    inversion Hs; subst. simpl in Hx. destruct Hx as [Hx | Hx].
    + subst x. rewrite Forall_forall in H2. apply H2.
      rewrite <- (firstn_skipn n l). apply in_or_app. right. exact Hy.
    + eapply IH; eassumption.
Qed.

Lemma filter_all_true {A} (p : A -> bool) (l : list A) :
  Forall (fun x => p x = true) l -> filter p l = l.
Proof.
  induction 1 as [| x r Hx Hr IH]; simpl; [reflexivity |].
  rewrite Hx, IH. reflexivity.
Qed.

(** What the claims established about the ranking step, for reuse. *)
Lemma rank_scored_threshold_and_top_k_aux {T} (scored : list (T * pyfloat)) (top_k : Z) :
  Forall (fun x => float_ge (snd x) score_threshold = true) (rank_scored scored top_k)
  /\ Z.of_nat (List.length (rank_scored scored top_k)) <= Z.max 0 top_k
  /\ StronglySorted (fun a b => float_ge (snd a) (snd b) = true)
                    (rank_scored scored top_k).
Proof.
  unfold rank_scored, slice_to. split; [| split].
  - apply Forall_firstn, list_sort_Forall, filter_threshold_Forall.
  - pose proof (firstn_le_length (Z.to_nat (Z.max 0 top_k))
                  (list_sort (@snd T pyfloat) true
                     (filter (fun item => float_ge (snd item) score_threshold) scored))).
    lia.
  - apply StronglySorted_firstn, list_sort_reverse_sorted.
    eapply Forall_impl; [| apply filter_threshold_Forall].
    intros x Hx. apply float_ge_not_nan in Hx. tauto.
Qed.

(** X1: the ranking step returns the best sentences: together with the
    sentences it leaves out, its output is a rearrangement of the
    sentences that reach the threshold, and no sentence left out scores
    higher than a sentence returned.  When [top_k] is at least the number
    of sentences that reach the threshold, nothing is left out. *)
Theorem rank_scored_returns_the_best :
  forall (T : Type) (scored : list (T * pyfloat)) (top_k : Z),
    exists rest,
      Permutation (rank_scored scored top_k ++ rest)
                  (filter (fun item => float_ge (snd item) score_threshold) scored)
      /\ (forall x y, In x (rank_scored scored top_k) -> In y rest ->
                      float_ge (snd x) (snd y) = true)
      /\ (Z.of_nat (List.length
                      (filter (fun item => float_ge (snd item) score_threshold) scored))
          <= top_k -> rest = []).
Proof.
  intros T scored top_k. unfold rank_scored, slice_to.
  set (kept := filter (fun item => float_ge (snd item) score_threshold) scored).
  set (sorted := list_sort (@snd T pyfloat) true kept).
  set (n := Z.to_nat (Z.max 0 top_k)).
  exists (skipn n sorted). split; [| split].
  - rewrite firstn_skipn. apply list_sort_perm.
  - apply StronglySorted_firstn_skipn. apply list_sort_reverse_sorted.
    eapply Forall_impl; [| apply filter_threshold_Forall].
    intros x Hx. apply float_ge_not_nan in Hx. tauto.
  - intros Hlen. apply skipn_all2. unfold sorted. rewrite list_sort_length. lia.
Qed.

(** X2: ranking is idempotent: ranking an already ranked list with the
    same [top_k] returns it unchanged. *)
Theorem rank_scored_idempotent :
  forall (T : Type) (scored : list (T * pyfloat)) (top_k : Z),
    rank_scored (rank_scored scored top_k) top_k = rank_scored scored top_k.
Proof.
  intros T scored top_k.
  destruct (rank_scored_threshold_and_top_k_aux scored top_k) as (Hf & Hlen & Hs).
  unfold rank_scored at 1.
  rewrite filter_all_true by exact Hf.
  rewrite list_sort_reverse_sorted_id by exact Hs.
  unfold slice_to. apply firstn_all2. lia.
Qed.

(** ** The segmenter *)

Lemma chars_app (a b : string) : chars (a ++ b)%string = chars a ++ chars b.
Proof.
  induction a as [| c a IH]; simpl; [reflexivity |].
  unfold chars in *. simpl. rewrite IH. reflexivity.
Qed.

Lemma re_sub_ws_chars_id (l : list ascii) :
  forall in_run,
    single_spaced l = true -> (in_run = true -> head_not_space l) ->
    re_sub_ws_chars in_run l = l.
Proof.
  induction l as [| c r IH]; intros in_run Hs Hh; simpl; [reflexivity |].
  simpl in Hs. apply andb_true_iff in Hs. destruct Hs as [Hc Hr].
  destruct (is_space c) eqn:Ec.
  - apply andb_true_iff in Hc. destruct Hc as [Hsp Hnext].
    apply Ascii.eqb_eq in Hsp. subst c.
    destruct in_run.
    + specialize (Hh eq_refl). simpl in Hh. congruence.
    + f_equal. apply IH; [exact Hr |].
      intros _. destruct r as [| d r']; [exact I |].
      simpl. apply negb_true_iff in Hnext. exact Hnext.
  - f_equal. apply IH; [exact Hr | discriminate].
Qed.

Lemma lstrip_chars_id (l : list ascii) : head_not_space l -> lstrip_chars l = l.
Proof.
  destruct l as [| c r]; simpl; [reflexivity |]. intros H. rewrite H. reflexivity.
Qed.

Lemma rstrip_chars_id (l : list ascii) : head_not_space (rev l) -> rstrip_chars l = l.
Proof.
  intros H. unfold rstrip_chars. rewrite lstrip_chars_id by exact H.
  apply rev_involutive.
Qed.

(** A well-formed sentence is left alone by [strip] and by the collapse
    of whitespace. *)
Lemma well_formed_sentence_fixed (s : string) :
  well_formed_sentence s ->
  strip s = s /\ strip (re_sub_ws s) = s /\ str_truthy s = true
  /\ exists before, rev (chars s) = "."%char :: before.
Proof.
  intros (Hne & [p Hp] & Hws).
  unfold whitespace_collapsed in Hws. apply andb_true_iff in Hws.
  destruct Hws as [Hhead Hsingle].
  assert (Hrev : rev (chars s) = "."%char :: rev (chars p)).
  { rewrite Hp, chars_app, rev_app_distr. reflexivity. }
  assert (Hh : head_not_space (chars s)).
  { destruct (chars s) as [| c r]; [exact I |].
    simpl. apply negb_true_iff in Hhead. exact Hhead. }
  assert (Hl : head_not_space (rev (chars s))) by (rewrite Hrev; reflexivity).
  assert (Hstrip : strip s = s).
  { unfold strip. rewrite lstrip_chars_id, rstrip_chars_id by assumption.
    apply str_chars. }
  repeat split.
  - exact Hstrip.
  - unfold re_sub_ws. rewrite re_sub_ws_chars_id by (assumption || discriminate).
    rewrite str_chars. exact Hstrip.
  - destruct s; [contradiction | reflexivity].
  - eexists. exact Hrev.
Qed.

Lemma normalized_unit_fixed (s : string) :
  well_formed_sentence s -> normalized_unit s = [s].
Proof.
  intros H. destruct (well_formed_sentence_fixed H) as (_ & Hc & _ & [before Hrev]).
  unfold normalized_unit. rewrite Hc, Hrev. reflexivity.
Qed.

(** X3: normalising sentences that are already normalised changes nothing. *)
Theorem normalize_sentences_idempotent :
  forall units : list string,
    normalize_sentences (normalize_sentences units) = normalize_sentences units.
Proof.
  intros units.
  assert (Hwf : Forall well_formed_sentence (normalize_sentences units)).
  { rewrite normalize_sentences_spec. apply Forall_flat_map, Forall_forall.
    intros u _. apply normalized_unit_well_formed. }
  rewrite (normalize_sentences_spec (normalize_sentences units)).
  induction Hwf as [| s l Hs Hl IH]; simpl; [reflexivity |].
  rewrite (normalized_unit_fixed Hs), IH. reflexivity.
Qed.

(** Every sentence of the segmenter is well formed. *)
Lemma split_into_sentences_wf (C : Collaborators) (text : string) :
  match split_into_sentences text with
  | Ok out => Forall well_formed_sentence out
  | Raise _ => True
  end.
Proof.
  assert (Hgen : forall units, Forall well_formed_sentence (normalize_sentences units)).
  { intros units. rewrite normalize_sentences_spec.
    apply Forall_flat_map, Forall_forall. intros u _. apply normalized_unit_well_formed. }
  unfold split_into_sentences.
  destruct (str_truthy (strip text)); simpl; [| constructor].
  destruct (sentence_units (strip text)); simpl; [apply Hgen | exact I].
Qed.

(** X4: the batch sent to the scoring collaborator is exactly the
    sentences of the segmenter, joined by single spaces: none is dropped
    or changed by the stripping of [score_sentences]. *)
Theorem batch_input_text_of_sentences :
  forall (C : Collaborators) (text : string) (sentences : list string),
    split_into_sentences text = Ok sentences ->
    batch_input_text sentences = join_space sentences.
Proof.
  intros C text sentences H.
  pose proof (split_into_sentences_wf C text) as Hwf. rewrite H in Hwf.
  clear H. unfold batch_input_text. f_equal.
  induction Hwf as [| s l Hs Hl IH]; simpl; [reflexivity |].
  destruct (well_formed_sentence_fixed Hs) as (Hstrip & _ & Ht & _).
  rewrite Hstrip, Ht. simpl. rewrite Hstrip, IH. reflexivity.
Qed.

Lemma batch_input_text_of_sentences_witness :
  batch_input_text ["Coffee dehydrates you."; "The WHO was founded in 1948."]
  = "Coffee dehydrates you. The WHO was founded in 1948.".
Proof.
  exact (@batch_input_text_of_sentences Sample.good
           "  Coffee   dehydrates you!  The WHO was founded in 1948?  "
           ["Coffee dehydrates you."; "The WHO was founded in 1948."] eq_refl).
Defined.

(** A list of characters has ink when one of them is not whitespace. *)
Lemma lstrip_chars_keeps_ink (l : list ascii) (c : ascii) :
  In c l -> is_space c = false -> In c (lstrip_chars l).
Proof.
  induction l as [| d r IH]; simpl; [tauto |].
  intros [Hd | Hr] Hc.
  - subst d. rewrite Hc. left. reflexivity.
  - destruct (is_space d); [apply IH; assumption | right; exact Hr].
Qed.

Lemma strip_keeps_ink (s : string) (c : ascii) :
  In c (chars s) -> is_space c = false -> In c (chars (strip s)).
Proof.
  intros Hin Hc. unfold strip, rstrip_chars. rewrite chars_str.
  apply -> in_rev. apply lstrip_chars_keeps_ink; [| exact Hc].
  apply -> in_rev. apply lstrip_chars_keeps_ink; assumption.
Qed.

Lemma re_sub_ws_chars_keeps_ink (l : list ascii) (c : ascii) :
  forall in_run, In c l -> is_space c = false -> In c (re_sub_ws_chars in_run l).
Proof.
  induction l as [| d r IH]; intros in_run Hin Hc; simpl; [contradiction |].
  destruct Hin as [Hd | Hr].
  - subst d. rewrite Hc. left. reflexivity.
  - destruct (is_space d); [destruct in_run |]; try right; apply IH; assumption.
Qed.

Lemma ink_truthy (s : string) (c : ascii) :
  In c (chars s) -> str_truthy s = true.
Proof. destruct s; simpl; [contradiction | reflexivity]. Qed.

Lemma normalized_unit_of_ink (u : string) (c : ascii) :
  In c (chars u) -> is_space c = false ->
  exists s, normalized_unit u = [s].
Proof.
  intros Hin Hc. unfold normalized_unit.
  assert (Hink : In c (chars (strip (re_sub_ws u)))).
  { apply strip_keeps_ink; [| exact Hc]. unfold re_sub_ws. rewrite chars_str.
    apply re_sub_ws_chars_keeps_ink; assumption. }
  apply in_rev in Hink.
  destruct (rev (chars (strip (re_sub_ws u)))) as [| final before]; [contradiction |].
  destruct (Ascii.eqb final "."); [eexists; reflexivity |].
  destruct (Ascii.eqb final "!" || Ascii.eqb final "?"); eexists; reflexivity.
Qed.

Lemma is_terminator_not_space (c : ascii) : is_terminator c = true -> is_space c = false.
Proof.
  unfold is_terminator. intros H.
  apply orb_true_iff in H. destruct H as [H | H];
    [apply orb_true_iff in H; destruct H as [H | H] |];
    apply Ascii.eqb_eq in H; subst c; reflexivity.
Qed.

(** The pieces of the fallback: the whole text when it has no
    terminator, else a first piece followed by its terminator. *)
Lemma re_split_chars_shape (l : list ascii) :
  re_split_chars l = [l]
  \/ exists p c rest, re_split_chars l = p :: [c] :: rest /\ is_terminator c = true.
Proof.
  induction l as [| d r IH]; simpl; [left; reflexivity |].
  destruct (is_terminator d) eqn:Ed.
  - right. exists [], d, (re_split_chars r). split; [reflexivity | exact Ed].
  - destruct IH as [IH | (p & c & rest & IH & Hc)]; rewrite IH.
    + left. reflexivity.
    + right. exists (d :: p), c, rest. split; [reflexivity | exact Hc].
Qed.

(** The fallback finds a first unit with ink in every text that has ink. *)
Lemma regex_fallback_first (t : string) (c : ascii) :
  In c (chars t) -> is_space c = false ->
  exists u us d, regex_fallback t = u :: us /\ In d (chars u) /\ is_space d = false.
Proof.
  intros Hin Hc. unfold regex_fallback, re_split_terminators.
  destruct (re_split_chars_shape (chars t)) as [H | (p & x & rest & H & Hx)]; rewrite H.
  - simpl. rewrite str_chars.
    rewrite (ink_truthy (strip t) c) by (apply strip_keeps_ink; assumption).
    simpl. exists (strip t), [], c. repeat split; [| exact Hc].
    apply strip_keeps_ink; assumption.
  - assert (Hnsp : is_space x = false) by (apply is_terminator_not_space; exact Hx).
    assert (Hink : In x (chars (strip (str p ++ String x EmptyString)%string))).
    { apply strip_keeps_ink; [| exact Hnsp].
      rewrite chars_app, chars_str. apply in_or_app. right. left. reflexivity. }
    simpl map. cbn [fallback_pairs]. rewrite (ink_truthy _ x Hink).
    match goal with
    | |- context [if ?b then _ else _] => destruct b
    end; simpl; eexists; eexists; exists x; (split; [reflexivity |]); split; assumption.
Qed.

(** X5: for a text that is not blank, when the tokenizer raises an
    [Exception] or returns nothing, the regex fallback takes over and the
    segmenter returns at least one sentence. *)
Theorem split_into_sentences_fallback_nonempty :
  forall (C : Collaborators) (text : string),
    str_truthy (strip text) = true ->
    (sent_tokenize (strip text) = Ok []
     \/ exists cls msg, sent_tokenize (strip text) = Raise (PyExc cls msg)) ->
    split_into_sentences text = Ok (normalize_sentences (regex_fallback (strip text)))
    /\ exists s rest, split_into_sentences text = Ok (s :: rest).
Proof.
  intros C text Ht Htok.
  assert (Hsplit : split_into_sentences text
                   = Ok (normalize_sentences (regex_fallback (strip text)))).
  { unfold split_into_sentences. rewrite Ht. simpl. unfold sentence_units. simpl.
    destruct Htok as [H | (cls & msg & H)]; rewrite H; reflexivity. }
  split; [exact Hsplit |]. rewrite Hsplit.
  assert (Hink : exists c, In c (chars (strip text)) /\ is_space c = false).
  { unfold strip in *. rewrite chars_str.
    pose proof (lstrip_chars_head (rev (lstrip_chars (chars text)))) as Hh.
    unfold rstrip_chars.
    destruct (lstrip_chars (rev (lstrip_chars (chars text)))) as [| d r] eqn:E.
    - unfold rstrip_chars in Ht. rewrite E in Ht. discriminate Ht.
    - exists d. split; [| exact Hh]. apply -> in_rev. left. reflexivity. }
  destruct Hink as (c & Hin & Hc).
  destruct (regex_fallback_first (strip text) c Hin Hc) as (u & us & d & Hu & Hd & Hds).
  rewrite normalize_sentences_spec, Hu. simpl.
  destruct (normalized_unit_of_ink u d Hd Hds) as [s Hs]. rewrite Hs.
  simpl. eexists. eexists. reflexivity.
Qed.

Lemma split_into_sentences_fallback_nonempty_witness :
  exists s rest,
    @split_into_sentences Sample.good "Is coffee bad?  Nobody knows" = Ok (s :: rest).
Proof.
  refine (proj2 (@split_into_sentences_fallback_nonempty Sample.good
                   "Is coffee bad?  Nobody knows" eq_refl _)).
  right. eexists. eexists. reflexivity.
Defined.

Lemma lstrip_chars_blank (l : list ascii) :
  forallb is_space l = true -> lstrip_chars l = [].
Proof.
  induction l as [| c r IH]; simpl; [reflexivity |].
  intros H. apply andb_true_iff in H. destruct H as [Hc Hr].
  rewrite Hc. apply IH. exact Hr.
Qed.

(** X6: a blank text (empty or whitespace only) is never sent anywhere:
    the segmenter returns no sentence without running the tokenizer, and
    the scorer, given a key, returns no sentence without calling the
    scoring collaborator. *)
Theorem blank_text_is_not_scored :
  forall (C : Collaborators) (text : string) (api_key : option string)
         (top_k : Z) (tr : trace) (k : string),
    forallb is_space (chars text) = true ->
    resolve_api_key api_key = Some k -> str_truthy k = true ->
    split_into_sentences text = Ok []
    /\ top_checkworthy_sentences text api_key top_k tr = (Ok [], tr).
Proof.
  intros C text api_key top_k tr k Hblank Hk Hkt.
  assert (Hs : split_into_sentences text = Ok []).
  { unfold split_into_sentences, strip.
    rewrite (lstrip_chars_blank _ Hblank). reflexivity. }
  split; [exact Hs |].
  unfold top_checkworthy_sentences. rewrite Hk, Hkt.
  unfold bind, of_result. rewrite Hs. simpl.
  unfold ret, rank_scored, slice_to. simpl. rewrite firstn_nil. reflexivity.
Qed.

Lemma blank_text_is_not_scored_witness :
  @split_into_sentences Sample.good "   " = Ok []
  /\ @top_checkworthy_sentences Sample.good "   " None 3 [] = (Ok [], []).
Proof.
  exact (@blank_text_is_not_scored Sample.good "   " None 3 [] "k"
           eq_refl eq_refl eq_refl).
Defined.

(** ** The scorer *)

Section ScorerMore.
Context {C : Collaborators}.

Lemma score_item_pair (results : list scored_sentence) (p : string * pyfloat) :
  fst p <> "" -> float_eqb (snd p) (FFin 0) = false ->
  score_item results (pair_object p) = Ok (results ++ [scored_pair p]).
Proof.
  destruct p as [s f]. simpl. intros Hs Hf.
  unfold score_item, pair_object, dict_get. simpl.
  unfold py_or. simpl.
  assert (Ht : str_truthy s = true) by (destruct s; [contradiction | reflexivity]).
  change (json_truthy (JStr s)) with (str_truthy s).
  rewrite ?Ht. cbn. rewrite ?Hf. cbn.
  change (json_truthy (JStr s)) with (str_truthy s).
  rewrite ?Ht, ?Hf. cbn. rewrite ?Hf, ?Ht. reflexivity.
Qed.

Lemma fold_score_item_pairs (pairs : list (string * pyfloat)) :
  forall results,
    Forall (fun p => fst p <> "" /\ float_eqb (snd p) (FFin 0) = false) pairs ->
    fold_result score_item (map pair_object pairs) results
    = Ok (results ++ map scored_pair pairs).
Proof.
  induction pairs as [| p rest IH]; intros results H; cbn [map fold_result].
  - rewrite app_nil_r. reflexivity.
  - inversion H as [| p' l' [Hs Hf] Hrest]; subst.
    rewrite (score_item_pair results p Hs Hf). cbn [rbind].
    rewrite (IH _ Hrest), <- app_assoc. reflexivity.
Qed.

Lemma fold_score_entry_pairs (pairs : list (string * pyfloat)) :
  forall results,
    fold_result score_entry (map (fun p => (fst p, JFloat (snd p))) pairs) results
    = Ok (results ++ map scored_pair pairs).
Proof.
  induction pairs as [| p rest IH]; intros results; simpl.
  - rewrite app_nil_r. reflexivity.
  - rewrite IH, <- app_assoc. reflexivity.
Qed.

Lemma dict_lookup_float_entries (pairs : list (string * pyfloat)) (key : string) :
  match dict_lookup (map (fun p => (fst p, JFloat (snd p))) pairs) key with
  | Some (JList _) => False
  | _ => True
  end.
Proof.
  induction pairs as [| p rest IH]; simpl; [exact I |].
  destruct (String.eqb (fst p) key); [exact I | exact IH].
Qed.

(** X7: the response shapes of the scoring collaborator normalise to the
    same scored sentences, in the order of the response: a list of
    sentence and score objects, the same list under the key [results],
    and a mapping from sentence to score (for sentences that are not
    empty and scores that are not zero). *)
Theorem normalize_scores_shapes_agree :
  forall pairs : list (string * pyfloat),
    Forall (fun p => fst p <> "" /\ float_eqb (snd p) (FFin 0) = false) pairs ->
    normalize_scores (JList (map pair_object pairs)) = Ok (map scored_pair pairs)
    /\ normalize_scores (JDict [("results", JList (map pair_object pairs))])
       = Ok (map scored_pair pairs)
    /\ normalize_scores (JDict (map (fun p => (fst p, JFloat (snd p))) pairs))
       = Ok (map scored_pair pairs).
Proof.
  intros pairs H. split; [| split].
  - apply (fold_score_item_pairs [] H).
  - apply (fold_score_item_pairs [] H).
  - unfold normalize_scores.
    pose proof (dict_lookup_float_entries pairs "results") as Hl.
    destruct (dict_lookup (map (fun p => (fst p, JFloat (snd p))) pairs) "results")
      as [[| | | | |items|] |]; try contradiction;
      apply (fold_score_entry_pairs pairs []).
Qed.

(** What the scorer returns went through the ranking step. *)
Lemma top_checkworthy_sentences_ranked (text : string) (api_key : option string)
      (top_k : Z) (tr tr' : trace) (top : list scored_sentence) :
  top_checkworthy_sentences text api_key top_k tr = (Ok top, tr') ->
  exists scored, top = rank_scored scored top_k.
Proof.
  unfold top_checkworthy_sentences, raise.
  destruct (resolve_api_key api_key) as [k |]; [| discriminate].
  destruct (str_truthy k); [| discriminate].
  unfold bind, of_result, ret.
  destruct (split_into_sentences text) as [sentences | e]; [| discriminate].
  destruct (score_sentences sentences k tr) as [[scored | e] tr1]; [| discriminate].
  intros H. inversion H; subst. exists scored. reflexivity.
Qed.

(** X8: whatever the scoring collaborator answers, the sentences the
    scorer returns are at most [max(0, top_k)], all score at least 0.5 and
    are sorted by decreasing score; and the extraction prompt is built from
    at most three sentences. *)
Theorem top_checkworthy_sentences_bounds :
  (forall (text : string) (api_key : option string) (top_k : Z)
          (tr tr' : trace) (top : list scored_sentence),
      top_checkworthy_sentences text api_key top_k tr = (Ok top, tr') ->
      Z.of_nat (List.length top) <= Z.max 0 top_k
      /\ Forall (fun x => float_ge (snd x) score_threshold = true) top
      /\ StronglySorted (fun a b => float_ge (snd a) (snd b) = true) top)
  /\ (forall (paragraph : string) (sentences : list json) (tr tr' : trace),
         check_worth_paragraph paragraph tr = (Ok sentences, tr') ->
         (List.length sentences <= 3)%nat).
Proof.
  split.
  - intros text api_key top_k tr tr' top H.
    destruct (top_checkworthy_sentences_ranked _ _ _ _ H) as [scored Hs]. subst top.
    destruct (rank_scored_threshold_and_top_k_aux scored top_k) as (Hf & Hlen & Hsorted).
    repeat split; assumption.
  - intros paragraph sentences tr tr' Hc.
    unfold check_worth_paragraph, bind, ret in Hc.
    destruct (top_checkworthy_sentences paragraph None 3 tr) as [[top3 | e] tr3] eqn:E;
      [| discriminate].
    inversion Hc; subst.
    destruct (top_checkworthy_sentences_ranked _ _ _ _ E) as [scored3 Hs3]. subst top3.
    destruct (rank_scored_threshold_and_top_k_aux scored3 3) as (_ & Hlen3 & _).
    rewrite length_map. lia.
Qed.

End ScorerMore.

Lemma normalize_scores_shapes_agree_witness :
  @normalize_scores Sample.good
    (JDict [("Coffee dehydrates you.", JFloat (FFin (7 # 10)));
            ("The WHO was founded in 1948.", JFloat (FFin (9 # 10)))])
  = Ok [(JStr "Coffee dehydrates you.", FFin (7 # 10));
        (JStr "The WHO was founded in 1948.", FFin (9 # 10))].
Proof.
  refine (proj2 (proj2 (@normalize_scores_shapes_agree Sample.good
                          [("Coffee dehydrates you.", FFin (7 # 10));
                           ("The WHO was founded in 1948.", FFin (9 # 10))] _))).
  repeat constructor; discriminate.
Defined.

Lemma top_checkworthy_sentences_bounds_witness :
  exists top tr',
    @top_checkworthy_sentences Sample.good Sample.paragraph None 3 [] = (Ok top, tr')
    /\ Z.of_nat (List.length top) <= Z.max 0 3
    /\ (List.length (map fst top) <= 3)%nat.
Proof.
  eexists. eexists. split; [reflexivity |]. split.
  - exact (proj1 (proj1 (@top_checkworthy_sentences_bounds Sample.good)
                        Sample.paragraph None 3
                        [] [CallScoring "k" Sample.paragraph]
                        [(JStr "The WHO was founded in 1948.", FFin (9 # 10));
                         (JStr "Coffee dehydrates you.", FFin (7 # 10))]
                        eq_refl)).
  - exact (proj2 (@top_checkworthy_sentences_bounds Sample.good)
                 Sample.paragraph
                 [JStr "The WHO was founded in 1948."; JStr "Coffee dehydrates you."]
                 [] [CallScoring "k" Sample.paragraph] eq_refl).
Defined.

(** ** The aggregator and the two callers *)

Section CallersMore.
Context {C : Collaborators}.

(** X9: every search sends exactly one request to the search
    collaborator, whatever comes back; and a status other than 200 raises
    an [Exception] that carries the status and the body, without decoding
    anything. *)
Theorem search_fact_checks_one_request :
  forall (query : pyval) (language : string) (max_results : Z) (tr : trace),
    snd (search_fact_checks query language max_results tr)
    = tr ++ [CallSearch query language max_results]
    /\ forall resp : response,
        factcheck_get tr query language max_results = Ok resp ->
        status_code resp <> 200 ->
        fst (search_fact_checks query language max_results tr)
        = Raise (PyExc "Exception"
                   ("Error: " ++ str_of_int (status_code resp)
                    ++ " - " ++ resp_text resp)%string).
Proof.
  intros query language max_results tr. split.
  - apply search_fact_checks_trace.
  - intros resp Hget Hst. unfold search_fact_checks, bind, call, raise.
    rewrite Hget. apply Z.eqb_neq in Hst. rewrite Hst. reflexivity.
Qed.

(** X10: no [Exception] ever leaves the route: whatever the
    collaborators do, [index] either renders a page or is left by
    something that is not an [Exception] (a [SystemExit]). *)
Theorem index_never_raises_exception :
  forall (req : request) (tr : trace) (e : exn),
    fst (index req tr) = Raise e -> is_Exception e = false.
Proof.
  intros req tr e. unfold index, index_body.
  destruct (String.eqb (method req) "POST"); [| discriminate].
  unfold bind at 1. unfold assign at 1. cbn [fst snd].
  destruct (str_truthy match form_user_input req with Some v => v | None => "" end);
    [| discriminate].
  unfold try_except.
  match goal with
  | |- context [index_try ?r ?s] => destruct (index_try r s) as [[u | e'] [L tr']]
  end; [discriminate |].
  destruct (is_Exception e') eqn:Ee; [discriminate |].
  simpl. intros H. inversion H; subst. exact Ee.
Qed.

(** X11: without an API key the route renders nothing: after the text
    was acquired and the assessment obtained, the [SystemExit] of the
    scorer passes through [except Exception] and leaves [index]; nothing is
    flashed and no later stage runs. *)
Theorem index_missing_key_exits :
  forall (req : request) (raw : string) (tr0 : trace)
         (txt : string) (w : list string) (fcText : string) (fc : json) (tr2 : trace),
    method req = "POST" -> form_user_input req = Some raw -> str_truthy raw = true ->
    process_input tr0 raw = Ok (txt, w) ->
    fact_check txt (tr0 ++ [CallProcessInput raw]) = (Ok fcText, tr2) ->
    json_loads fcText = Ok fc ->
    (getenv_CLAIMBUSTER_API_KEY = None \/ getenv_CLAIMBUSTER_API_KEY = Some "") ->
    index req tr0 = (Raise (SystemExit missing_key_message), tr2).
Proof.
  intros req raw tr0 txt w fcText fc tr2 Hm Hf Hr Hproc Hassess Hloads Hkey.
  rewrite (@index_post C req raw tr0 Hm Hf Hr). unfold index_try.
  unfold bind at 1. unfold lift at 1. unfold call at 1. cbn [fst snd].
  rewrite Hproc. cbn [fst snd].
  unfold bind at 1. unfold assign at 1. cbn [fst snd].
  unfold bind at 1. unfold lift at 1. cbn [fst snd]. rewrite Hassess.
  unfold bind at 1. unfold lift at 1. unfold of_result at 1. cbn [fst snd].
  rewrite Hloads.
  unfold bind at 1. unfold assign at 1. cbn [fst snd].
  unfold bind at 1. unfold lift at 1. cbn [fst snd].
  unfold top_checkworthy_sentences.
  change (resolve_api_key None) with getenv_CLAIMBUSTER_API_KEY.
  destruct Hkey as [Hk | Hk]; rewrite Hk; reflexivity.
Qed.





End CallersMore.

Lemma search_fact_checks_one_request_witness :
  fst (@search_fact_checks Sample.search_down (PyStr "a") "en" 5 [])
  = Raise (PyExc "Exception" "Error: 500 - failure").
Proof.
  refine (proj2 (@search_fact_checks_one_request Sample.search_down (PyStr "a") "en" 5 [])
                (mkResponse 500 "failure" (Raise (PyExc "JSONDecodeError" "Expecting value")))
                eq_refl _).
  discriminate.
Defined.

Lemma index_never_raises_exception_witness :
  is_Exception (SystemExit missing_key_message) = false.
Proof.
  exact (@index_never_raises_exception Sample.no_key Sample.post []
           (SystemExit missing_key_message) eq_refl).
Defined.

Lemma index_missing_key_exits_witness :
  @index Sample.no_key Sample.post []
  = (Raise (SystemExit missing_key_message),
     [CallProcessInput Sample.paragraph;
      CallAssessmentLLM ("Fact-check: " ++ Sample.paragraph)]).
Proof.
  refine (@index_missing_key_exits Sample.no_key Sample.post Sample.paragraph []
            Sample.paragraph [] "{}" (JDict []) _
            eq_refl eq_refl eq_refl eq_refl eq_refl eq_refl _).
  left. reflexivity.
Defined.


(** X13: when every stage succeeds, the route renders the page with the
    text, the assessment, the ranked sentences and, only then, the
    warnings of the text acquisition; every claim was searched exactly
    once, in order; [fact_checks] is [None] when there is no claim and
    otherwise what the search for the last claim returned. *)
Theorem index_success :
  forall (C : Collaborators) (req : request) (raw : string) (tr0 : trace)
         (txt : string) (w : list string) (fcText : string) (fc : json)
         (tr2 : trace) (cw : list scored_sentence) (tr3 : trace)
         (claims : string) (tr4 : trace) (claim_list : pyval) (items : list pyval)
         (L1 : page) (tr5 : trace),
    method req = "POST" -> form_user_input req = Some raw -> str_truthy raw = true ->
    process_input tr0 raw = Ok (txt, w) ->
    fact_check txt (tr0 ++ [CallProcessInput raw]) = (Ok fcText, tr2) ->
    json_loads fcText = Ok fc ->
    top_checkworthy_sentences txt None 3 tr2 = (Ok cw, tr3) ->
    extract_claims txt tr3 = (Ok claims, tr4) ->
    literal_eval claims = Ok claim_list ->
    py_iter claim_list = Ok items ->
    index_search_loop items
      ({| text := Some txt; warnings := []; raw_input := raw; factcheck := Some fc;
          fact_checks := None; claim_worthy := Some cw |},
       tr4 ++ [PrintClaimList claim_list])
    = (Ok tt, (L1, tr5)) ->
    index req tr0
    = (Ok {| text := Some txt; warnings := w; raw_input := raw; factcheck := Some fc;
             fact_checks := fact_checks L1; claim_worthy := Some cw |}, tr5)
    /\ search_calls tr5 = search_calls tr0 ++ map search_event items
    /\ (items = [] -> fact_checks L1 = None)
    /\ (forall pre last_claim,
           items = pre ++ [last_claim] ->
           exists tr1 results,
             fst (search_fact_checks last_claim "en" 5 tr1) = Ok results
             /\ fact_checks L1 = Some results).
Proof.
  intros C req raw tr0 txt w fcText fc tr2 cw tr3 claims tr4 claim_list items L1 tr5
         Hm Hf Hr Hproc Hassess Hloads Hscore Hextract Hparse Hiter Hloop.
  pose proof (index_search_loop_ok items _ _ Hloop) as (H1 & H2 & H3 & H4 & H5 & H6 & H7).
  simpl in H1, H2, H3, H4, H5, H7.
  split; [| split; [| split]].
  - rewrite (@index_post C req raw tr0 Hm Hf Hr).
    rewrite (@index_try_scored C raw tr0 txt w fcText fc tr2 cw tr3
               Hproc Hassess Hloads Hscore).
    unfold bind at 1. unfold lift at 1. cbn [fst snd]. rewrite Hextract.
    unfold bind at 1. unfold lift at 1. unfold of_result at 1. cbn [fst snd].
    rewrite Hparse.
    unfold bind at 1. unfold lift at 1. unfold emit at 1. cbn [fst snd].
    unfold bind at 1. unfold lift at 1. unfold of_result at 1. cbn [fst snd].
    rewrite Hiter.
    unfold bind at 1.
    match goal with
    | |- context [index_search_loop items ?s] =>
        replace (index_search_loop items s) with (Ok tt, (L1, tr5))
          by (symmetry; exact Hloop)
    end.
    unfold assign. cbn [fst snd].
    unfold set_warnings. rewrite H1, H3, H4, H5. reflexivity.
  - pose proof (@no_search_before_parsing C raw tr0 txt fcText tr2 cw tr3
                  Hassess Hscore claims tr4 Hextract) as Hn.
    rewrite H6. unfold search_calls in *. rewrite filter_app. simpl.
    rewrite app_nil_r, Hn. reflexivity.
  - exact H7.
  - intros pre last_claim Hitems. subst items.
    apply (index_search_loop_keeps_last pre last_claim _ _ Hloop).
Qed.

Lemma index_success_witness :
  @index Sample.good Sample.post []
  = (Ok {| text := Some Sample.paragraph; warnings := [];
           raw_input := Sample.paragraph; factcheck := Some (JDict []);
           fact_checks := Some [];
           claim_worthy := Some [(JStr "The WHO was founded in 1948.", FFin (9 # 10));
                                 (JStr "Coffee dehydrates you.", FFin (7 # 10))] |},
     snd (@index Sample.good Sample.post [])).
Proof.
  refine (proj1 (@index_success Sample.good Sample.post Sample.paragraph []
                   Sample.paragraph [] "{}" (JDict [])
                   [CallProcessInput Sample.paragraph;
                    CallAssessmentLLM ("Fact-check: " ++ Sample.paragraph)]
                   [(JStr "The WHO was founded in 1948.", FFin (9 # 10));
                    (JStr "Coffee dehydrates you.", FFin (7 # 10))]
                   [CallProcessInput Sample.paragraph;
                    CallAssessmentLLM ("Fact-check: " ++ Sample.paragraph);
                    CallScoring "k" Sample.paragraph]
                   "['a', 'b']"
                   [CallProcessInput Sample.paragraph;
                    CallAssessmentLLM ("Fact-check: " ++ Sample.paragraph);
                    CallScoring "k" Sample.paragraph;
                    CallScoring "k" Sample.paragraph;
                    CallExtractionLLM
                      "Extract the claims: The WHO was founded in 1948. Coffee dehydrates you."]
                   (PyList [PyStr "a"; PyStr "b"]) [PyStr "a"; PyStr "b"]
                   {| text := Some Sample.paragraph; warnings := [];
                      raw_input := Sample.paragraph; factcheck := Some (JDict []);
                      fact_checks := Some [];
                      claim_worthy :=
                        Some [(JStr "The WHO was founded in 1948.", FFin (9 # 10));
                              (JStr "Coffee dehydrates you.", FFin (7 # 10))] |}
                   (snd (@index Sample.good Sample.post []))
                   eq_refl eq_refl eq_refl eq_refl eq_refl eq_refl eq_refl eq_refl
                   eq_refl eq_refl eq_refl)).
Defined.

(** ** File names and transcription *)

Lemma re_sub_ws_chars_Forall (P : ascii -> Prop) (l : list ascii) :
  forall in_run, P " "%char -> Forall P l -> Forall P (re_sub_ws_chars in_run l).
Proof.
  induction l as [| c r IH]; intros in_run Hsp Hl; simpl; [constructor |].
  inversion Hl; subst.
  destruct (is_space c); [destruct in_run |]; try constructor; auto.
Qed.

Lemma lstrip_chars_Forall (P : ascii -> Prop) (l : list ascii) :
  Forall P l -> Forall P (lstrip_chars l).
Proof.
  intros H. destruct (lstrip_chars_suffix l) as [pre Hpre].
  rewrite Hpre in H. apply Forall_app in H. tauto.
Qed.

Lemma rstrip_chars_Forall (P : ascii -> Prop) (l : list ascii) :
  Forall P l -> Forall P (rstrip_chars l).
Proof.
  intros H. destruct (rstrip_chars_prefix l) as [ws Hws].
  rewrite Hws in H. apply Forall_app in H. tauto.
Qed.

(** A string whose whitespace is collapsed and that ends in ink is left
    alone by [strip] and by the collapse of whitespace. *)
Lemma collapsed_fixed (s : string) :
  single_spaced (chars s) = true -> head_not_space (chars s) ->
  head_not_space (rev (chars s)) ->
  strip s = s /\ strip (re_sub_ws s) = s.
Proof.
  intros Hs Hh Hl.
  assert (Hstrip : strip s = s).
  { unfold strip. rewrite lstrip_chars_id, rstrip_chars_id by assumption.
    apply str_chars. }
  split; [exact Hstrip |].
  unfold re_sub_ws. rewrite re_sub_ws_chars_id by (assumption || discriminate).
  rewrite str_chars. exact Hstrip.
Qed.

Module YoutubeFacts.
Import YoutubeTranscriber.

Lemma sanitize_chars (s : string) :
  Forall (fun c => is_safe_char c = true) (chars (_sanitize s))
  /\ single_spaced (chars (_sanitize s)) = true
  /\ head_not_space (chars (_sanitize s))
  /\ head_not_space (rev (chars (_sanitize s))).
Proof.
  split.
  - unfold _sanitize, strip at 1, re_sub_ws. rewrite !chars_str.
    apply rstrip_chars_Forall, lstrip_chars_Forall, re_sub_ws_chars_Forall;
      [reflexivity |].
    apply Forall_forall. intros c Hc. apply filter_In in Hc. tauto.
  - unfold _sanitize. apply collapsed_unit_spec.
Qed.

(** X14: a sanitized name holds only letters, digits and the characters
    [. _ -] and single spaces, and neither starts nor ends with a space. *)
Theorem sanitize_is_safe :
  forall s : string,
    Forall (fun c => is_safe_char c = true) (chars (_sanitize s))
    /\ whitespace_collapsed (_sanitize s) = true
    /\ head_not_space (rev (chars (_sanitize s))).
Proof.
  intros s. destruct (sanitize_chars s) as (Hsafe & Hsingle & Hhead & Hlast).
  revert Hsafe Hsingle Hhead Hlast. generalize (_sanitize s). intros out.
  intros Hsafe Hsingle Hhead Hlast.
  split; [exact Hsafe | split; [| exact Hlast]].
  unfold whitespace_collapsed. rewrite Hsingle, andb_true_r.
  destruct (chars out) as [| c r]; [reflexivity |].
  simpl in Hhead. rewrite Hhead. reflexivity.
Qed.

Lemma replace_char_absent (a b : ascii) (l : list ascii) :
  Forall (fun c => Ascii.eqb c a = false) l -> replace_char a b l = l.
Proof.
  induction 1 as [| c r Hc Hr IH]; simpl; [reflexivity |].
  rewrite Hc. f_equal. exact IH.
Qed.

Lemma safe_char_not (a : ascii) (l : list ascii) :
  is_safe_char a = false ->
  Forall (fun c => is_safe_char c = true) l ->
  Forall (fun c => Ascii.eqb c a = false) l.
Proof.
  intros Ha H. eapply Forall_impl; [| exact H].
  intros c Hc. simpl in Hc. destruct (Ascii.eqb c a) eqn:E; [| reflexivity].
  apply Ascii.eqb_eq in E. subst c. congruence.
Qed.

(** X15: sanitizing is idempotent. *)
Theorem sanitize_idempotent :
  forall s : string, _sanitize (_sanitize s) = _sanitize s.
Proof.
  intros s. destruct (sanitize_chars s) as (Hsafe & Hsingle & Hhead & Hlast).
  destruct (collapsed_fixed (_sanitize s) Hsingle Hhead Hlast) as [Hstrip Hcollapse].
  set (out := _sanitize s) in *.
  unfold _sanitize at 1. rewrite Hstrip, !chars_str.
  rewrite (replace_char_absent slash "-"%char)
    by (apply safe_char_not; [reflexivity | exact Hsafe]).
  rewrite (replace_char_absent backslash "-"%char)
    by (apply safe_char_not; [reflexivity | exact Hsafe]).
  rewrite filter_all_true by exact Hsafe.
  rewrite str_chars. exact Hcollapse.
Qed.

Section TranscribeFacts.
Context {T : Transcription}.

(** X16: a request that cannot be served has no effect beyond the
    download: an unknown engine is refused before anything is
    downloaded, and when the download fails nothing is transcribed and
    nothing is kept, whatever [keep_temp] says. *)
Theorem transcribe_youtube_refusals :
  forall (youtube_url engine model : string) (ffmpeg_location : option string)
         (keep_temp : bool) (tr : list t_event),
    (engine <> "faster-whisper" -> engine <> "whisper" ->
     transcribe_youtube youtube_url engine model ffmpeg_location keep_temp tr
     = (Raise (PyExc "ValueError" engine_message), tr))
    /\ (forall e : exn,
           engine = "faster-whisper" \/ engine = "whisper" ->
           download_audio_to_temp youtube_url ffmpeg_location = Raise e ->
           transcribe_youtube youtube_url engine model ffmpeg_location keep_temp tr
           = (Raise e, tr ++ [DownloadAudio youtube_url ffmpeg_location])).
Proof.
  intros youtube_url engine model ffmpeg_location keep_temp tr. split.
  - intros H1 H2. unfold transcribe_youtube.
    apply String.eqb_neq in H1. apply String.eqb_neq in H2.
    rewrite H1, H2. reflexivity.
  - intros e Hengine Hd. unfold transcribe_youtube.
    assert (He : String.eqb engine "faster-whisper" || String.eqb engine "whisper" = true).
    { destruct Hengine as [H | H]; subst engine; reflexivity. }
    rewrite He. simpl negb. cbv iota.
    unfold bind, t_call. rewrite Hd. reflexivity.
Qed.

(** X17: keeping the audio never changes what [transcribe_youtube]
    returns or raises, provided the directory for it can be made and the
    move fails, if it fails, with an [Exception]. *)
Theorem keep_temp_preserves_outcome :
  forall (youtube_url engine model : string) (ffmpeg_location : option string)
         (tr : list t_event),
    make_persist_dir = Ok tt ->
    (forall src name e, replace_audio src name = Raise e -> is_Exception e = true) ->
    fst (transcribe_youtube youtube_url engine model ffmpeg_location true tr)
    = fst (transcribe_youtube youtube_url engine model ffmpeg_location false tr).
Proof.
  intros youtube_url engine model ffmpeg_location tr Hdir Hmove.
  unfold transcribe_youtube.
  destruct (negb (String.eqb engine "faster-whisper" || String.eqb engine "whisper"));
    [reflexivity |].
  unfold bind, t_call.
  destruct (download_audio_to_temp youtube_url ffmpeg_location) as [dl | e];
    [| reflexivity].
  unfold try_finally.
  destruct (String.eqb engine "whisper"); cbv beta iota;
    unfold keep_audio, bind, t_call, try_except, t_emit, ret; rewrite Hdir;
    (destruct (replace_audio (audio_path dl) (kept_file_name dl)) as [u | e] eqn:E;
     [reflexivity | rewrite (Hmove _ _ _ E); reflexivity]).
Qed.

(** X18: whenever a run of [transcribe_youtube] moves the audio file, the
    name it gives it is a non-empty name of safe characters followed by the
    suffix of the downloaded file. *)
Theorem kept_file_name_is_safe :
  forall (youtube_url engine model : string) (ffmpeg_location : option string)
         (keep_temp : bool) (src name : string),
    In (MoveAudio src name)
       (snd (transcribe_youtube youtube_url engine model ffmpeg_location keep_temp [])) ->
    exists safe : string,
      name = (safe ++ path_suffix src)%string
      /\ safe <> ""
      /\ Forall (fun c => is_safe_char c = true) (chars safe).
Proof.
  intros youtube_url engine model ffmpeg_location keep_temp src name.
  assert (Hname : forall dl,
             exists safe, kept_file_name dl = (safe ++ path_suffix (audio_path dl))%string
                          /\ safe <> ""
                          /\ Forall (fun c => is_safe_char c = true) (chars safe)).
  { intros dl. unfold kept_file_name.
    destruct (str_truthy (_sanitize (title dl))) eqn:E.
    - exists (_sanitize (title dl)). repeat split.
      + intros H. rewrite H in E. discriminate E.
      + exact (proj1 (sanitize_chars (title dl))).
    - exists "audio". repeat split; [discriminate |].
      repeat constructor. }
  unfold transcribe_youtube.
  destruct (negb (String.eqb engine "faster-whisper" || String.eqb engine "whisper"));
    [simpl; tauto |].
  unfold bind at 1. unfold t_call at 1.
  destruct (download_audio_to_temp youtube_url ffmpeg_location) as [dl | e];
    [| simpl; intros [H | []]; discriminate H].
  unfold try_finally.
  assert (Hbody : forall s r s1,
             (if String.eqb engine "whisper"
              then t_call (TranscribeWhisper (audio_path dl) model)
                          (transcribe_with_whisper (audio_path dl) model)
              else t_call (TranscribeFasterWhisper (audio_path dl) model)
                          (transcribe_with_faster_whisper (audio_path dl) model)) s
             = (r, s1) ->
             exists ev, s1 = s ++ [ev]
                        /\ forall a b, ev <> MoveAudio a b).
  { intros s r s1. destruct (String.eqb engine "whisper"); unfold t_call;
      intros H; inversion H; subst; eexists; split; try reflexivity;
        intros a b; discriminate. }
  match goal with
  | |- context [(if String.eqb engine "whisper" then ?a else ?b) ?s] =>
      destruct ((if String.eqb engine "whisper" then a else b) s) as [r s1] eqn:Eb
  end.
  destruct (Hbody _ _ _ Eb) as (ev & Hs1 & Hev). subst s1.
  destruct (Hname dl) as (safe & Hsafe).
  destruct keep_temp.
  - unfold keep_audio, bind, t_call, try_except, t_emit, ret.
    destruct make_persist_dir as [u | e];
      [destruct (replace_audio (audio_path dl) (kept_file_name dl)) as [u' | e'];
       [| destruct (is_Exception e')] |];
      simpl; intros H;
      repeat (destruct H as [H | H];
              [first [discriminate H
                     | exfalso; exact (Hev _ _ H)
                     | inversion H; subst; exists safe; exact Hsafe] |]);
      contradiction.
  - unfold ret. simpl. intros H.
    repeat (destruct H as [H | H];
            [first [discriminate H | exfalso; exact (Hev _ _ H)] |]).
    contradiction.
Qed.

End TranscribeFacts.

End YoutubeFacts.

Lemma transcribe_youtube_refusals_witness :
  @YoutubeTranscriber.transcribe_youtube (SampleMedia.transcription true)
    "https://youtu.be/ok" "vosk" "tiny" None true []
  = (Raise (PyExc "ValueError" YoutubeTranscriber.engine_message), [])
  /\ @YoutubeTranscriber.transcribe_youtube (SampleMedia.transcription true)
       "https://youtu.be/gone" "whisper" "tiny" None true []
     = (Raise (PyExc "DownloadError" "Video unavailable"),
        [YoutubeTranscriber.DownloadAudio "https://youtu.be/gone" None]).
Proof.
  split.
  - refine (proj1 (@YoutubeFacts.transcribe_youtube_refusals (SampleMedia.transcription true)
                     "https://youtu.be/ok" "vosk" "tiny" None true []) _ _);
      discriminate.
  - refine (proj2 (@YoutubeFacts.transcribe_youtube_refusals (SampleMedia.transcription true)
                     "https://youtu.be/gone" "whisper" "tiny" None true [])
                  (PyExc "DownloadError" "Video unavailable") _ eq_refl).
    right. reflexivity.
Defined.

Lemma keep_temp_preserves_outcome_witness :
  fst (@YoutubeTranscriber.transcribe_youtube (SampleMedia.transcription false)
         "https://youtu.be/ok" "faster-whisper" "tiny" None true [])
  = fst (@YoutubeTranscriber.transcribe_youtube (SampleMedia.transcription false)
           "https://youtu.be/ok" "faster-whisper" "tiny" None false []).
Proof.
  refine (@YoutubeFacts.keep_temp_preserves_outcome (SampleMedia.transcription false)
            "https://youtu.be/ok" "faster-whisper" "tiny" None [] eq_refl _).
  intros src name e H. simpl in H. inversion H. reflexivity.
Defined.

Lemma kept_file_name_is_safe_witness :
  exists safe : string,
    "My Talk.webm" = (safe ++ ".webm")%string
    /\ safe <> ""
    /\ Forall (fun c => YoutubeTranscriber.is_safe_char c = true) (chars safe).
Proof.
  refine (@YoutubeFacts.kept_file_name_is_safe (SampleMedia.transcription true)
            "https://youtu.be/ok" "whisper" "tiny" None true
            "/tmp/yt-transcribe-1/My Talk.webm" "My Talk.webm" _).
  vm_compute. right. right. right. left. reflexivity.
Defined.

(** ** Readable text from a web page *)

Module WebFacts.
Import TextFromWeb.

Lemma dedupe_step_cases (acc : list string) (ln : string) :
  dedupe_step acc ln = acc ++ [ln] \/ dedupe_step acc ln = acc.
Proof.
  unfold dedupe_step. destruct acc as [| a r]; [left; reflexivity |].
  destruct (negb (String.eqb ln (last (a :: r) ""))); [left | right]; reflexivity.
Qed.

Lemma dedupe_Forall (P : string -> Prop) (lines : list string) :
  forall acc, Forall P acc -> Forall P lines ->
              Forall P (fold_left dedupe_step lines acc).
Proof.
  induction lines as [| ln r IH]; intros acc Ha Hl; simpl; [exact Ha |].
  inversion Hl; subst. apply IH; [| assumption].
  destruct (dedupe_step_cases acc ln) as [H | H]; rewrite H; [| exact Ha].
  apply Forall_app. split; [exact Ha | constructor; [assumption | constructor]].
Qed.

Lemma no_repeated_line_snoc (acc : list string) (ln : string) :
  no_repeated_line acc = true ->
  (acc = [] \/ String.eqb ln (last acc "") = false) ->
  no_repeated_line (acc ++ [ln]) = true.
Proof.
  induction acc as [| a r IH]; intros Hacc Hlast; [reflexivity |].
  destruct Hlast as [H | Hlast]; [discriminate H |].
  destruct r as [| b r'].
  - simpl in *. rewrite String.eqb_sym, Hlast. reflexivity.
  - change (no_repeated_line (a :: b :: r') = true)
      with (negb (String.eqb a b) && no_repeated_line (b :: r') = true) in Hacc.
    apply andb_true_iff in Hacc. destruct Hacc as [Hab Hr].
    change (negb (String.eqb a b) && no_repeated_line ((b :: r') ++ [ln]) = true).
    rewrite Hab. apply IH; [exact Hr | right; exact Hlast].
Qed.

Lemma dedupe_no_repeat (lines : list string) :
  forall acc, no_repeated_line acc = true ->
              no_repeated_line (fold_left dedupe_step lines acc) = true.
Proof.
  induction lines as [| ln r IH]; intros acc Ha; simpl; [exact Ha |].
  apply IH. unfold dedupe_step. destruct acc as [| a acc']; [reflexivity |].
  destruct (String.eqb ln (last (a :: acc') "")) eqn:E; simpl negb; cbv iota;
    [exact Ha |].
  apply no_repeated_line_snoc; [exact Ha | right; exact E].
Qed.

Lemma readable_lines_kept (raw : string) :
  Forall kept_line (readable_lines raw) /\ no_repeated_line (readable_lines raw) = true.
Proof.
  unfold readable_lines. split.
  - apply dedupe_Forall; [constructor |].
    apply Forall_forall. intros ln Hin. apply filter_In in Hin. destruct Hin as [Hin Hk].
    apply in_map_iff in Hin. destruct Hin as (u & Hu & _). subst ln.
    split; [exact Hk | apply collapsed_unit_spec].
  - apply dedupe_no_repeat. reflexivity.
Qed.

Lemma readable_lines_content_aux (raw : string) :
  Forall (fun ln => (MIN_CHARS_PER_LINE <= String.length ln)%nat
                    /\ existsb is_alpha (chars ln) = true
                    /\ whitespace_collapsed ln = true
                    /\ head_not_space (rev (chars ln)))
         (readable_lines raw)
  /\ no_repeated_line (readable_lines raw) = true.
Proof.
  destruct (readable_lines_kept raw) as [Hk Hn]. split; [| exact Hn].
  eapply Forall_impl; [| exact Hk].
  intros ln (Hkeep & Hs & Hh & Hl). unfold keep_line in Hkeep.
  apply andb_true_iff in Hkeep. destruct Hkeep as [Hkeep Halpha].
  apply andb_true_iff in Hkeep. destruct Hkeep as [_ Hlen].
  repeat split.
  - apply Nat.leb_le. exact Hlen.
  - exact Halpha.
  - unfold whitespace_collapsed. rewrite Hs, andb_true_r.
    destruct (chars ln) as [| c r]; [reflexivity |].
    simpl in Hh. rewrite Hh. reflexivity.
  - exact Hl.
Qed.

(** X19: every line of the readable text has at least 30 characters,
    one of them a letter, has its whitespace collapsed and no space at
    either end; and no line repeats the line before it. *)
Theorem readable_lines_content :
  forall raw : string,
    Forall (fun ln => (MIN_CHARS_PER_LINE <= String.length ln)%nat
                      /\ existsb is_alpha (chars ln) = true
                      /\ whitespace_collapsed ln = true
                      /\ head_not_space (rev (chars ln)))
           (readable_lines raw)
    /\ no_repeated_line (readable_lines raw) = true.
Proof.
  intros raw. apply readable_lines_content_aux.
Qed.

Lemma break_is_space (c : ascii) :
  is_line_break c = true \/ is_cr c = true -> is_space c = true.
Proof.
  unfold is_line_break, is_cr, is_space.
  set (n := N_of_ascii c). intros H.
  repeat rewrite orb_true_iff in H. repeat rewrite N.eqb_eq in H.
  repeat rewrite orb_true_iff. repeat rewrite andb_true_iff.
  repeat rewrite N.leb_le. repeat rewrite N.eqb_eq. lia.
Qed.

Lemma single_spaced_no_break (l : list ascii) :
  single_spaced l = true ->
  Forall (fun c => is_line_break c = false /\ is_cr c = false) l.
Proof.
  induction l as [| c r IH]; intros H; [constructor |].
  simpl in H. apply andb_true_iff in H. destruct H as [Hc Hr].
  constructor; [| apply IH; exact Hr].
  destruct (is_space c) eqn:Ec.
  - apply andb_true_iff in Hc. destruct Hc as [Hsp _].
    apply Ascii.eqb_eq in Hsp. subst c. split; reflexivity.
  - split.
    + destruct (is_line_break c) eqn:E; [| reflexivity].
      rewrite (break_is_space c (or_introl E)) in Ec. discriminate Ec.
    + destruct (is_cr c) eqn:E; [| reflexivity].
      rewrite (break_is_space c (or_intror E)) in Ec. discriminate Ec.
Qed.

Lemma splitlines_chars_line (l : list ascii) :
  forall cur rest,
    Forall (fun c => is_line_break c = false /\ is_cr c = false) l ->
    splitlines_chars cur (l ++ rest) = splitlines_chars (rev l ++ cur) rest.
Proof.
  induction l as [| c r IH]; intros cur rest H; [reflexivity |].
  inversion H as [| c' r' [Hb Hc] Hr]; subst.
  simpl app. cbn [splitlines_chars]. rewrite Hc, Hb.
  rewrite IH by exact Hr. simpl rev. rewrite <- app_assoc. reflexivity.
Qed.

Lemma join_newline_cons (s s2 : string) (rest : list string) :
  join_newline (s :: s2 :: rest) = (s ++ newline ++ join_newline (s2 :: rest))%string.
Proof. reflexivity. Qed.

(** Joining lines and splitting them again gives the lines back. *)
Lemma splitlines_join_newline (lines : list string) :
  Forall (fun s => str_truthy s = true
                   /\ Forall (fun c => is_line_break c = false /\ is_cr c = false)
                             (chars s)) lines ->
  splitlines (join_newline lines) = lines.
Proof.
  induction 1 as [| s rest [Hne Hs] Hrest IH]; [reflexivity |].
  unfold splitlines in *. destruct rest as [| s2 r].
  - simpl join_newline.
    rewrite <- (app_nil_r (chars s)), splitlines_chars_line by exact Hs.
    rewrite app_nil_r. simpl.
    destruct (rev (chars s)) as [| c l] eqn:E.
    + destruct s; [discriminate Hne |]. 
      apply (f_equal (@List.length ascii)) in E. rewrite length_rev in E.
      discriminate E.
    + rewrite <- E, rev_involutive. cbn [map]. rewrite str_chars. reflexivity.
  - rewrite join_newline_cons, !chars_app.
    rewrite splitlines_chars_line by exact Hs.
    rewrite app_nil_r. change (chars newline) with [ascii_of_nat 10].
    simpl app. cbn [splitlines_chars].
    change (is_cr (ascii_of_nat 10)) with false.
    change (is_line_break (ascii_of_nat 10)) with true. cbv iota.
    cbn [map]. rewrite rev_involutive, str_chars. f_equal. exact IH.
Qed.

Lemma no_repeated_line_middle (acc : list string) (ln : string) (r : list string) :
  no_repeated_line (acc ++ ln :: r) = true -> acc <> [] ->
  String.eqb ln (last acc "") = false.
Proof.
  induction acc as [| a acc' IH]; intros H Hne; [contradiction |].
  destruct acc' as [| b acc''].
  - simpl in H. apply andb_true_iff in H. destruct H as [H _].
    apply negb_true_iff in H. simpl. rewrite String.eqb_sym. exact H.
  - change (negb (String.eqb a b) && no_repeated_line ((b :: acc'') ++ ln :: r) = true)
      in H.
    apply andb_true_iff in H. destruct H as [_ H].
    change (String.eqb ln (last (b :: acc'') "") = false).
    apply IH; [exact H | discriminate].
Qed.

Lemma dedupe_fixed (lines : list string) :
  forall acc, no_repeated_line (acc ++ lines) = true ->
              fold_left dedupe_step lines acc = acc ++ lines.
Proof.
  induction lines as [| ln r IH]; intros acc H; simpl.
  - symmetry. apply app_nil_r.
  - assert (Hstep : dedupe_step acc ln = acc ++ [ln]).
    { unfold dedupe_step. destruct acc as [| a acc']; [reflexivity |].
      rewrite (@no_repeated_line_middle (a :: acc') ln r H) by discriminate.
      reflexivity. }
    rewrite Hstep, IH; rewrite <- app_assoc; [reflexivity | exact H].
Qed.

(** X20: cleaning is idempotent: the lines of a readable text, joined by
    newlines and cleaned again, are the same lines. *)
Theorem readable_lines_idempotent :
  forall raw : string,
    readable_lines (join_newline (readable_lines raw)) = readable_lines raw.
Proof.
  intros raw. destruct (readable_lines_kept raw) as [Hk Hn].
  set (lines := readable_lines raw) in *.
  unfold readable_lines at 1.
  rewrite splitlines_join_newline.
  - assert (Hmap : map (fun ln => strip (re_sub_ws ln)) lines = lines).
    { clear Hn. induction Hk as [| ln r (Hkeep & Hs & Hh & Hl) Hr IH]; simpl;
        [reflexivity |].
      rewrite (proj2 (collapsed_fixed ln Hs Hh Hl)), IH. reflexivity. }
    rewrite Hmap.
    rewrite filter_all_true
      by (eapply Forall_impl; [| exact Hk]; intros ln H; apply H).
    apply (dedupe_fixed lines []). exact Hn.
  - eapply Forall_impl; [| exact Hk].
    intros ln (Hkeep & Hs & _). split.
    + unfold keep_line in Hkeep. apply andb_true_iff in Hkeep.
      destruct Hkeep as [Hkeep _]. apply andb_true_iff in Hkeep. tauto.
    + apply single_spaced_no_break. exact Hs.
Qed.

Lemma starts_with_app (m b : list ascii) : starts_with m (m ++ b) = true.
Proof.
  induction m as [| c m IH]; [reflexivity |].
  simpl. rewrite Ascii.eqb_refl. exact IH.
Qed.

Lemma contains_chars_unfold (m l : list ascii) :
  contains_chars m l
  = starts_with m l || match l with [] => false | _ :: r => contains_chars m r end.
Proof. destruct l; reflexivity. Qed.

Lemma contains_chars_app (m a b : list ascii) : contains_chars m (a ++ m ++ b) = true.
Proof.
  induction a as [| c a IH].
  - simpl app. rewrite contains_chars_unfold, starts_with_app. reflexivity.
  - simpl app. rewrite contains_chars_unfold, IH. apply orb_true_r.
Qed.

Lemma lower_app (a b : string) : lower (a ++ b) = (lower a ++ lower b)%string.
Proof. unfold lower. rewrite chars_app, map_app, str_app. reflexivity. Qed.

Section WebRuns.
Context {W : Web}.

(** X21: the paywall check does not depend on letter case: when the
    visible text of the page contains a paywall marker in any mix of upper
    and lower case, the article is skipped and no text is returned. *)
Theorem paywall_marker_any_case :
  forall (html before found after raw marker : string),
    soup_texts html = Ok ((before ++ found ++ after)%string, raw) ->
    In marker paywall_markers ->
    lower found = marker ->
    extract_readable_text html
    = Raise (PyExc "SkippedArticle" "Skipped: detected paywall copy in page.").
Proof.
  intros html before found after raw marker Hsoup Hin Hlow.
  unfold extract_readable_text. rewrite Hsoup. unfold rbind. cbn [fst snd].
  assert (He : existsb (fun m => contains m (lower (before ++ found ++ after)))
                       paywall_markers = true).
  { apply existsb_exists. exists marker. split; [exact Hin |].
    unfold contains. rewrite !lower_app, Hlow, !chars_app.
    apply contains_chars_app. }
  rewrite He. reflexivity.
Qed.

(** X22: [fetch_html] returns a text exactly when the status is neither
    4xx nor 5xx; the four blocked statuses raise [SkippedArticle] and every
    other 4xx or 5xx status raises [HTTPError]; the text returned is decoded
    with the apparent encoding when the declared one is missing or is
    ISO-8859-1 in any letter case. *)
Theorem fetch_html_outcomes :
  forall (url : string) (timeout : Z) (r : web_response),
    session_get url timeout = Ok r ->
    (is_ok (fetch_html url timeout) = true
     <-> (web_status r < 400 \/ 600 <= web_status r))
    /\ (In (web_status r) [401; 402; 403; 451] ->
        fetch_html url timeout
        = Raise (PyExc "SkippedArticle"
                   ("Skipped (HTTP " ++ str_of_int (web_status r)
                    ++ "): access not permitted.")%string))
    /\ (400 <= web_status r < 600 -> ~ In (web_status r) [401; 402; 403; 451] ->
        fetch_html url timeout = Raise (PyExc "HTTPError" (web_http_error_str r)))
    /\ (forall declared,
           web_status r < 400 \/ 600 <= web_status r ->
           web_encoding r = declared ->
           (declared = None \/ exists e, declared = Some e
                                         /\ (lower e = "" \/ lower e = "iso-8859-1")) ->
           fetch_html url timeout = Ok (web_text r (web_apparent_encoding r))).
Proof.
  intros url timeout r Hget. unfold fetch_html. rewrite Hget. unfold rbind.
  assert (Hblocked : blocked_status (web_status r) = true
                     <-> In (web_status r) [401; 402; 403; 451]).
  { unfold blocked_status. simpl.
    repeat rewrite orb_true_iff. repeat rewrite Z.eqb_eq.
    split; intros H; repeat destruct H as [H | H]; auto; contradiction. }
  assert (Hrange : (400 <=? web_status r) && (web_status r <? 600) = true
                   <-> 400 <= web_status r < 600).
  { rewrite andb_true_iff, Z.leb_le, Z.ltb_lt. tauto. }
  destruct (blocked_status (web_status r)) eqn:Eb.
  - assert (Hin : In (web_status r) [401; 402; 403; 451]) by (apply Hblocked; reflexivity).
    assert (Hst : 400 <= web_status r < 600).
    { simpl in Hin. lia. }
    split; [| split; [| split]].
    + simpl. split; [discriminate | lia].
    + reflexivity.
    + intros _ Hn. contradiction.
    + intros declared Hs. lia.
  - assert (Hnin : ~ In (web_status r) [401; 402; 403; 451]).
    { intros H. apply Hblocked in H. discriminate H. }
    destruct ((400 <=? web_status r) && (web_status r <? 600)) eqn:Er.
    + assert (Hst : 400 <= web_status r < 600) by (apply Hrange; reflexivity).
      split; [| split; [| split]].
      * simpl. split; [discriminate | lia].
      * intros H. contradiction.
      * reflexivity.
      * intros declared Hs. lia.
    + assert (Hst : ~ 400 <= web_status r < 600).
      { intros H. apply Hrange in H. discriminate H. }
      split; [| split; [| split]].
      * simpl. split; [lia | reflexivity].
      * intros H. contradiction.
      * intros H. contradiction.
      * intros declared _ Henc Hdecl. unfold _fix_encoding.
        destruct Hdecl as [Hd | (e & Hd & [He | He])]; rewrite Henc, Hd.
        -- reflexivity.
        -- rewrite He. reflexivity.
        -- rewrite He. reflexivity.
Qed.


End WebRuns.

End WebFacts.


Lemma paywall_marker_any_case_witness :
  @TextFromWeb.extract_readable_text
    (SampleMedia.page 200 "Please SUBSCRIBE to read on" "Please SUBSCRIBE to read on") "<html/>"
  = Raise (PyExc "SkippedArticle" "Skipped: detected paywall copy in page.").
Proof.
  refine (@WebFacts.paywall_marker_any_case
            (SampleMedia.page 200 "Please SUBSCRIBE to read on" "Please SUBSCRIBE to read on")
            "<html/>" "Please " "SUBSCRIBE" " to read on" "Please SUBSCRIBE to read on"
            "subscribe" eq_refl _ eq_refl).
  left. reflexivity.
Defined.

Lemma fetch_html_outcomes_witness :
  @TextFromWeb.fetch_html (SampleMedia.page 200 "" "") "https://example.org" 15
  = Ok "<html>decoded as utf-8</html>".
Proof.
  refine (proj2 (proj2 (proj2
            (@WebFacts.fetch_html_outcomes (SampleMedia.page 200 "" "")
               "https://example.org" 15
               (TextFromWeb.mkWebResponse 200 (Some "ISO-8859-1") (Some "utf-8")
                  (fun enc => match enc with
                              | Some "utf-8" => "<html>decoded as utf-8</html>"
                              | _ => "<html>decoded otherwise</html>"
                              end))
               eq_refl)))
            (Some "ISO-8859-1") _ eq_refl _).
  - left. simpl. lia.
  - right. exists "ISO-8859-1". split; [reflexivity |]. right. reflexivity.
Defined.
